(** * The LLM gateway route (src/app/api/llm/route.ts)

    A shallow embedding of the route handler [POST], of its three provider
    adapters and of their prompt builders, with the properties of the
    gateway stated over it.

    The route is TypeScript, so at run time it works on untyped JavaScript
    values: the request body is whatever [request.json()] decodes, and the
    type annotations ([prompt: string], [options: LLMOptions]) are erased.
    The embedding therefore keeps JavaScript values, truthiness, property
    reads that throw on [null] and [undefined], and string coercion.

    Strings are byte strings holding the UTF-8 text of the source.
    Diagnostic output ([console.log], [console.error]) is left out. *)

From Stdlib Require Import String Ascii List Bool Arith Lia.
From Stdlib Require Import ZArith.
From Stdlib Require Import Floats.PrimFloat.
Import ListNotations.
Local Open Scope list_scope.
Local Open Scope string_scope.

(** ** JavaScript values *)

Local Set Warnings "-register-all,-inexact-float".

Module JS.

(** Values as [JSON.parse] builds them, plus [undefined].  A number is an
    IEEE binary64.  [Obj] lists the own properties of an object; the first
    binding of a name is the property. *)
Inductive Value : Type :=
| Undefined
| Null
| Bool (b : bool)
| Num (x : float)
| Str (s : string)
| Arr (items : list Value)
| Obj (props : list (string * Value)).

(** The engine faults the route can meet; they are [TypeError]s. *)
Inductive Fault : Type :=
| ReadProperty (base : Value) (prop : string)
| Destructure (base : Value)
| ToPrimitive.

(** A thrown value.  Everything thrown on the route's paths is an [Error]
    object, and the route only reads its [message]. *)
Record Error : Type := mkError { message : string }.

(** Outcome of evaluating an expression. *)
Inductive Completion (A : Type) : Type :=
| Normal (a : A)
| Throw (e : Error).
Arguments Normal {A} a.
Arguments Throw {A} e.

(** What the engine decides and the route does not: how a number prints
    and how a [TypeError] words its message. *)
Record Engine : Type := mkEngine {
  numberToString : float -> string;
  faultMessage : Fault -> string
}.

Definition bindC {A B} (c : Completion A) (k : A -> Completion B)
  : Completion B :=
  match c with
  | Normal a => k a
  | Throw e => Throw e
  end.

(** ToBoolean: [undefined], [null], [false], [+0], [-0], [NaN] and the empty
    string are falsy. *)
Definition truthy (v : Value) : bool :=
  match v with
  | Undefined | Null => false
  | Bool b => b
  | Num x => negb (is_zero x || is_nan x)
  | Str s => negb (s =? "")
  | Arr _ | Obj _ => true
  end.

Definition nullish (v : Value) : bool :=
  match v with
  | Undefined | Null => true
  | _ => false
  end.

Fixpoint lookup (p : string) (props : list (string * Value)) : Value :=
  match props with
  | [] => Undefined
  | (k, v) :: rest => if k =? p then v else lookup p rest
  end.

Fixpoint hasOwn (p : string) (props : list (string * Value)) : bool :=
  match props with
  | [] => false
  | (k, _) :: rest => (k =? p) || hasOwn p rest
  end.

(** [a || b] on values. *)
Definition or (a b : Value) : Value := if truthy a then a else b.

(** [v === s] for a string literal [s]. *)
Definition strictEqualsString (v : Value) (s : string) : bool :=
  match v with
  | Str t => t =? s
  | _ => false
  end.

Section WithEngine.
Variable engine : Engine.

Definition typeError (f : Fault) : Error := mkError (faultMessage engine f).

(** [v.p] and [v[0]] (with [p] = "0").  Reading from [null] or [undefined]
    throws.  The names the route reads are prompt, provider, options,
    temperature, topP, topK, the four include flags, error, message,
    choices, content, text and the index 0; none of them is inherited from
    a prototype, so a name that is not an own property reads as
    [undefined].  Index 0 of a string is its first code unit, kept here as
    the first byte (exact for a string that starts with an ASCII
    character). *)
Definition Get (v : Value) (p : string) : Completion Value :=
  match v with
  | Undefined | Null => Throw (typeError (ReadProperty v p))
  | Obj props => Normal (lookup p props)
  | Arr items => Normal (if p =? "0" then nth 0 items Undefined else Undefined)
  | Str s =>
      Normal (if p =? "0"
              then match s with
                   | EmptyString => Undefined
                   | String c _ => Str (String c EmptyString)
                   end
              else Undefined)
  | Bool _ | Num _ => Normal Undefined
  end.

(** [v?.p] *)
Definition GetOptional (v : Value) (p : string) : Completion Value :=
  if nullish v then Normal Undefined else Get v p.

(** ToString.  An array prints through [Array.prototype.join]; an object
    prints as "[object Object]" unless an own [toString] property (never
    callable in decoded JSON) shadows the inherited method, in which case
    the conversion to a primitive fails. *)
Fixpoint ToString (v : Value) : Completion string :=
  match v with
  | Undefined => Normal "undefined"
  | Null => Normal "null"
  | Bool true => Normal "true"
  | Bool false => Normal "false"
  | Num x => Normal (numberToString engine x)
  | Str s => Normal s
  | Arr items =>
      (fix join (l : list Value) : Completion string :=
         match l with
         | [] => Normal ""
         | x :: rest =>
             bindC (match x with
                    | Undefined | Null => Normal ""
                    | _ => ToString x
                    end)
                   (fun s =>
                      match rest with
                      | [] => Normal s
                      | _ :: _ => bindC (join rest)
                                        (fun r => Normal (s ++ "," ++ r))
                      end)
         end) items
  | Obj props =>
      if hasOwn "toString" props then Throw (typeError ToPrimitive)
      else Normal "[object Object]"
  end.

End WithEngine.

End JS.

Import JS.

(** ** Effects: the environment, the network, and what a request does *)

(** The second argument of [fetch].  [body] holds the value handed to
    [JSON.stringify]; the text on the wire is its serialisation. *)
Record RequestInit : Type := mkRequestInit {
  method : string;
  headers : list (string * string);
  body : Value
}.

(** What the route reads of a [fetch] response: the [ok] flag and the
    outcome of [response.json()]. *)
Record Response : Type := mkResponse {
  ok : bool;
  json : Completion Value
}.

(** What the route reads of the Gemini client's response: its [text]. *)
Record GenerateContentResponse : Type := mkGenerateContentResponse {
  responseText : Value
}.

(** The world outside the route: the JavaScript engine, [process.env], the
    Gemini client created with [new GoogleGenAI({ apiKey })], and [fetch].
    A request makes at most one outbound call, so a function of the call's
    arguments is enough to stand for the network. *)
Record Host : Type := mkHost {
  engine : Engine;
  env : string -> option string;
  generateContent : Value -> Value -> Completion GenerateContentResponse;
  fetch : string -> RequestInit -> Completion Response
}.

(** The observable steps of a request, in order. *)
Inductive Event : Type :=
| EnvRead (name : string)
| GenerateContent (apiKey : Value) (params : Value)
| Fetch (url : string) (init : RequestInit).

(** A computation: the events it performed and how it completed. *)
Definition Eff (A : Type) : Type := (list Event * Completion A)%type.

Definition ret {A} (a : A) : Eff A := ([], Normal a).

Definition throw {A} (e : Error) : Eff A := ([], Throw e).

Definition lift {A} (c : Completion A) : Eff A := ([], c).

Definition bind {A B} (m : Eff A) (k : A -> Eff B) : Eff B :=
  match m with
  | (t, Normal a) => let (t', c) := k a in ((t ++ t')%list, c)
  | (t, Throw e) => (t, Throw e)
  end.

(** [try { m } catch (error) { handler error }] *)
Definition tryCatch {A} (m : Eff A) (handler : Error -> Eff A) : Eff A :=
  match m with
  | (t, Normal a) => (t, Normal a)
  | (t, Throw e) => let (t', c) := handler e in ((t ++ t')%list, c)
  end.

Declare Scope eff_scope.
Delimit Scope eff_scope with eff.
Notation "x <- m ;; k" := (bind m (fun x => k))
  (at level 61, m at next level, right associativity) : eff_scope.
Notation "x <~ c ;; k" := (bindC c (fun x => k))
  (at level 61, c at next level, right associativity) : eff_scope.
Local Open Scope eff_scope.

(** ** Provider configuration *)

Inductive LLMProvider : Type := gemini | openai | claude.

Record ProviderConfig : Type := mkProviderConfig {
  modelName : string;
  maxTokens : float
}.

Definition LLM_CONFIG (p : LLMProvider) : ProviderConfig :=
  match p with
  | gemini => mkProviderConfig "gemini-2.0-flash" 8192
  | openai => mkProviderConfig "gpt-3.5-turbo" 4096
  | claude => mkProviderConfig "claude-3-haiku-20240307" 4096
  end.

Record LLMResponse : Type := mkLLMResponse {
  text : Value;
  model : string;
  error : option string
}.

(** The object a result literal builds: [error] is a property only where
    the literal writes it. *)
Definition LLMResponse_object (r : LLMResponse) : Value :=
  Obj (("text", text r) :: ("model", Str (model r))
       :: match error r with
          | Some e => [("error", Str e)]
          | None => []
          end).

Record NextResponse : Type := mkNextResponse {
  status : nat;
  payload : Value
}.

(** [NextResponse.json(v, { status })]; the status is 200 when not given. *)
Definition NextResponse_json (v : Value) (st : option nat) : NextResponse :=
  mkNextResponse (match st with Some n => n | None => 200 end) v.

(** ** Prompt templates *)

Definition LF : string := String "010" EmptyString.

(** The template texts below are the source's, with a backquote written
    for each double quote; [tpl] puts the double quotes back. *)
Fixpoint tpl (s : string) : string :=
  match s with
  | EmptyString => EmptyString
  | String c rest =>
      String (if Ascii.eqb c "096" then "034"%char else c) (tpl rest)
  end.

(** formatJournalPromptForGemini: the template up to [${prompt}]. *)
Definition geminiOpening : string := tpl "
You are a professional journal analyzer. Analyze the following journal entries and provide both advanced visual and textual insights:

".

(** formatJournalPromptForGemini: the template after [${prompt}]. *)
Definition geminiInstructions : string := tpl "

Please provide the following analysis:

// --- Visual Analysis (as before) ---
1. Extract keywords for a word cloud (array of strings, most important first)
2. For each entry, estimate energy (1-10) and productivity (1-10)
3. List top mood influencers (array of {influencer, impact})
4. For each entry, estimate emotion distribution (object with keys: joy, sadness, anger, fear, surprise, disgust, values 0-1)
5. List topic hierarchy (array of strings, most important first)
6. Flow data showing relationships between emotions and factors:
   - Extract positive and negative emotions
   - Identify external and internal factors
   - Create nodes for each emotion and factor
   - Create edges showing relationships between factors and emotions
7. For each entry, estimate health metrics: sentiment (0-100), physicalWellness (0-100), mentalResilience (0-100)
8. Progress metrics (object: health, resilience, academic, research, 0-100)
9. Analyze the overall journal for:
   a. Happiness sources (array of {source, strength, moments, quote, color})
   b. Tense usage (object: present, past, future, each as percentage)
   c. Word choice categories (array of {category, percentage})
10. Provide a brief, actionable insight (2-3 sentences) summarizing the user's health and wellness trends, strengths, and areas for improvement, based on the metrics above.

// --- Textual Analysis ---
11. Emotional Triggers: Link mood shifts to specific events and note stressors (e.g., Holi celebration → `joy` in late March, `adjusting` in early March).
12. Energy-Level Tracking: For each time block in the daily rhythm, rate energy/mood (1–5 scale) and note correlations (e.g., late-night creativity and energy/burnout).
13. Goal Progress Metrics: Track mentions of goals and document milestones or setbacks.
14. Social Interaction Impact: Analyze how family/professional interactions affect mood.
15. Sleep & Rest Analysis: Monitor sleep duration/quality and its correlation with productivity.
16. Creative Output Log: Record creative work output during late-night sessions.
17. Stress Indicators: Flag stress-related terms and contextualize with events.
18. Gratitude Tracking: Highlight moments of gratitude to assess positivity trends.
19. Vocabulary Shifts Over Time: Summarize shifts in language and provide an insight about the progression (see example below).
20. Major Milestones: List key achievements and provide an insight about their holistic impact (see example below).
21. Daily Rhythm Patterns: Summarize productive work, self-care, creative exploration, and opportunities for growth (see example below).
22. For each of the above, provide structured data for tables/lists and a brief insight/summary as shown in the reference images.

Format your response as JSON with the following structure:
{
  `keywords`: string[],
  `metrics`: {`energy`: number, `productivity`: number}[],
  `moodInfluencers`: {`influencer`: string, `impact`: number}[],
  `emotionDistribution`: Record<string, number>[],
  `topicHierarchy`: string[],
  `flowData`: {
    `nodes`: [
      {
        `id`: string,
        `label`: string,
        `type`: `emotion` | `factor`,
        `data`: {
          `category`: `positive` | `negative` | `external` | `internal`
        }
      }
    ],
    `edges`: [
      {
        `id`: string,
        `source`: string,
        `target`: string,
        `label`: string
      }
    ]
  },
  `healthMetrics`: {`sentiment`: number, `physicalWellness`: number, `mentalResilience`: number}[],
  `progressMetrics`: {`health`: number, `resilience`: number, `academic`: number, `research`: number},
  `happinessSources`: [
    {`source`: string, `strength`: number, `moments`: string[], `quote`: string, `color`: string}
  ],
  `tenseUsage`: {`present`: number, `past`: number, `future`: number},
  `wordChoiceCategories`: [
    {`category`: string, `percentage`: number}
  ],
  `healthWellnessInsight`: string,
  // --- Textual Analysis ---
  `emotionalTriggers`: [
    { `event`: string, `mood`: string, `timeframe`: string, `note`: string }
  ],
  `energyLevelTracking`: [
    { `timeBlock`: string, `energy`: number, `mood`: string, `correlation`: string }
  ],
  `goalProgressMetrics`: [
    { `goal`: string, `status`: string, `milestone`: string, `setback`: string }
  ],
  `socialInteractionImpact`: [
    { `interaction`: string, `moodImpact`: string, `note`: string }
  ],
  `sleepRestAnalysis`: [
    { `date`: string, `duration`: string, `quality`: string, `productivityCorrelation`: string }
  ],
  `creativeOutputLog`: [
    { `date`: string, `output`: string, `timeBlock`: string }
  ],
  `stressIndicators`: [
    { `term`: string, `context`: string, `event`: string }
  ],
  `gratitudeTracking`: [
    { `moment`: string, `positivityTrend`: string }
  ],
  `vocabularyShifts`: {
    `phases`: [
      { `phase`: string, `words`: string[], `mood`: string }
    ],
    `insight`: string
  },
  `majorMilestones`: {
    `milestones`: [
      { `date`: string, `title`: string, `description`: string, `insight`: string }
    ],
    `insight`: string
  },
  `dailyRhythmPatterns`: {
    `blocks`: [
      { `block`: string, `activities`: string[], `note`: string }
    ],
    `insight`: string
  }
}
Return ONLY valid JSON.
".

(** formatJournalPromptForOpenAI: the initial template up to [${prompt}]. *)
Definition openaiOpening : string := tpl "
Analyze the following journal entries and provide detailed insights:

".

(** formatJournalPromptForOpenAI: the initial template after [${prompt}]. *)
Definition openaiInstructions : string := tpl "

Please provide the following analysis as a JSON object:
1. Overall sentiment analysis (include a score from -10 to +10)
2. Key topics discussed with their frequency and context
3. Patterns and trends identified with their significance
4. Personalized insights based on the entries
5. Actionable suggestions for the journal writer
".

(** formatJournalPromptForOpenAI: the JSON structure instruction. *)
Definition openaiClosing : string := tpl "

Return ONLY a valid JSON object with the following structure:
{
    `sentiment`: { `overall`: `string description`, `score`: number },
    `topics`: [{ `name`: `string`, `frequency`: number, `context`: `string` }],
    `patterns`: [{ `pattern`: `string`, `significance`: `string` }],
    `insights`: [`string`],
    `suggestions`: [`string`]
}".

(** formatJournalPromptForClaude: the initial template up to [${prompt}]. *)
Definition claudeOpening : string := tpl "
Analyze the following journal entries and provide comprehensive insights:

".

(** formatJournalPromptForClaude: the initial template after [${prompt}]. *)
Definition claudeInstructions : string := tpl "

Please provide the following analysis in a JSON format:
1. Overall sentiment analysis with a score from -10 to +10
2. Key topics discussed with their frequency and context
3. Patterns and trends identified with their significance
4. Personalized insights based on the journal content
5. Actionable suggestions for the journal writer
".

(** formatJournalPromptForClaude: the JSON format instruction. *)
Definition claudeClosing : string := tpl "

Return ONLY a valid JSON object with the following structure:
{
    `sentiment`: { `overall`: `string description`, `score`: number },
    `topics`: [{ `name`: `string`, `frequency`: number, `context`: `string` }],
    `patterns`: [{ `pattern`: `string`, `significance`: `string` }],
    `insights`: [`string`],
    `suggestions`: [`string`]
}".

(** ** The route *)

Section Route.
Variable host : Host.

(** [process.env.NAME] *)
Definition readEnv (name : string) : Eff Value :=
  ([EnvRead name],
   Normal (match env host name with
           | Some s => Str s
           | None => Undefined
           end)).

(** [await genAI.models.generateContent(params)] *)
Definition callGenerateContent (apiKey params : Value)
  : Eff GenerateContentResponse :=
  ([GenerateContent apiKey params], generateContent host apiKey params).

(** [await fetch(url, init)] *)
Definition callFetch (url : string) (init : RequestInit) : Eff Response :=
  ([Fetch url init], fetch host url init).

(** [x.p] in the route's engine. *)
Definition get (v : Value) (p : string) : Eff Value :=
  lift (Get (engine host) v p).

(** The string a template literal or [new Error(v)] makes of [v]. *)
Definition toString (v : Value) : Eff string :=
  lift (ToString (engine host) v).

(** [structuredPrompt += line] under [if (flag)]. *)
Definition appendIf (flag : Value) (line structuredPrompt : string) : string :=
  if truthy flag then structuredPrompt ++ line else structuredPrompt.

Definition formatJournalPromptForGemini (prompt options : Value)
  : Completion string :=
  p <~ ToString (engine host) prompt ;;
  let structuredPrompt := geminiOpening ++ p ++ geminiInstructions in
  Normal structuredPrompt.

Definition formatJournalPromptForOpenAI (prompt options : Value)
  : Completion string :=
  p <~ ToString (engine host) prompt ;;
  let structuredPrompt := openaiOpening ++ p ++ openaiInstructions in
  includeWordCloud <~ Get (engine host) options "includeWordCloud" ;;
  let structuredPrompt :=
    appendIf includeWordCloud
      (LF ++ "6. Most frequently used words and their context")
      structuredPrompt in
  includeMoodDistribution <~
    Get (engine host) options "includeMoodDistribution" ;;
  let structuredPrompt :=
    appendIf includeMoodDistribution
      (LF ++ "7. Mood distribution and emotional patterns")
      structuredPrompt in
  includeGoals <~ Get (engine host) options "includeGoals" ;;
  let structuredPrompt :=
    appendIf includeGoals
      (LF ++ "8. Goals mentioned and progress tracking")
      structuredPrompt in
  includeSocialInteractions <~
    Get (engine host) options "includeSocialInteractions" ;;
  let structuredPrompt :=
    appendIf includeSocialInteractions
      (LF ++ "9. People mentioned and relationship dynamics")
      structuredPrompt in
  let structuredPrompt := structuredPrompt ++ openaiClosing in
  Normal structuredPrompt.

Definition formatJournalPromptForClaude (prompt options : Value)
  : Completion string :=
  p <~ ToString (engine host) prompt ;;
  let structuredPrompt := claudeOpening ++ p ++ claudeInstructions in
  includeWordCloud <~ Get (engine host) options "includeWordCloud" ;;
  let structuredPrompt :=
    appendIf includeWordCloud
      (LF ++ "6. Most frequently used words and their context")
      structuredPrompt in
  includeMoodDistribution <~
    Get (engine host) options "includeMoodDistribution" ;;
  let structuredPrompt :=
    appendIf includeMoodDistribution
      (LF ++ "7. Mood distribution and emotional patterns")
      structuredPrompt in
  includeGoals <~ Get (engine host) options "includeGoals" ;;
  let structuredPrompt :=
    appendIf includeGoals
      (LF ++ "8. Goals mentioned and progress tracking")
      structuredPrompt in
  includeSocialInteractions <~
    Get (engine host) options "includeSocialInteractions" ;;
  let structuredPrompt :=
    appendIf includeSocialInteractions
      (LF ++ "9. People mentioned and relationship dynamics")
      structuredPrompt in
  let structuredPrompt := structuredPrompt ++ claudeClosing in
  Normal structuredPrompt.

(** The [catch] block shared in shape by the three adapters. *)
Definition failed (p : LLMProvider) (e : Error) : Eff LLMResponse :=
  ret (mkLLMResponse (Str "") (modelName (LLM_CONFIG p)) (Some (message e))).

Definition getGeminiResponse (prompt options : Value) : Eff LLMResponse :=
  tryCatch
    (apiKey <- readEnv "GEMINI_API_KEY" ;;
     if negb (truthy apiKey)
     then throw (mkError
                   "GEMINI_API_KEY is not defined in environment variables")
     else
       structuredPrompt <- lift (formatJournalPromptForGemini prompt options) ;;
       temperature <- get options "temperature" ;;
       topP <- get options "topP" ;;
       topK <- get options "topK" ;;
       response <-
         callGenerateContent apiKey
           (Obj [("model", Str (modelName (LLM_CONFIG gemini)));
                 ("contents", Str structuredPrompt);
                 ("generationConfig",
                  Obj [("maxOutputTokens", Num (maxTokens (LLM_CONFIG gemini)));
                       ("temperature", or temperature (Num 0.7));
                       ("topP", or topP (Num 0.95));
                       ("topK", or topK (Num 40))])]) ;;
       ret (mkLLMResponse (responseText response)
              (modelName (LLM_CONFIG gemini)) None))
    (failed gemini).

Definition getOpenAIResponse (prompt options : Value) : Eff LLMResponse :=
  tryCatch
    (apiKey <- readEnv "OPENAI_API_KEY" ;;
     if negb (truthy apiKey)
     then throw (mkError
                   "OPENAI_API_KEY is not defined in environment variables")
     else
       key <- toString apiKey ;;
       content <- lift (formatJournalPromptForOpenAI prompt options) ;;
       temperature <- get options "temperature" ;;
       topP <- get options "topP" ;;
       response <-
         callFetch "https://api.openai.com/v1/chat/completions"
           (mkRequestInit "POST"
              [("Content-Type", "application/json");
               ("Authorization", "Bearer " ++ key)]
              (Obj [("model", Str (modelName (LLM_CONFIG openai)));
                    ("messages",
                     Arr [Obj [("role", Str "system");
                               ("content",
                                Str "You are a professional journal analyzer providing insights and analysis.")];
                          Obj [("role", Str "user");
                               ("content", Str content)]]);
                    ("max_tokens", Num (maxTokens (LLM_CONFIG openai)));
                    ("temperature", or temperature (Num 0.7));
                    ("top_p", or topP (Num 0.95))])) ;;
       if negb (ok response)
       then
         error <- lift (json response) ;;
         inner <- get error "error" ;;
         reported <- lift (GetOptional (engine host) inner "message") ;;
         msg <- toString (or reported (Str "OpenAI API error")) ;;
         throw (mkError msg)
       else
         data <- lift (json response) ;;
         choices <- get data "choices" ;;
         first <- get choices "0" ;;
         message <- get first "message" ;;
         content <- get message "content" ;;
         ret (mkLLMResponse content (modelName (LLM_CONFIG openai)) None))
    (failed openai).

Definition getClaudeResponse (prompt options : Value) : Eff LLMResponse :=
  tryCatch
    (apiKey <- readEnv "ANTHROPIC_API_KEY" ;;
     if negb (truthy apiKey)
     then throw (mkError
                   "ANTHROPIC_API_KEY is not defined in environment variables")
     else
       key <- toString apiKey ;;
       content <- lift (formatJournalPromptForClaude prompt options) ;;
       temperature <- get options "temperature" ;;
       response <-
         callFetch "https://api.anthropic.com/v1/messages"
           (mkRequestInit "POST"
              [("Content-Type", "application/json");
               ("x-api-key", key);
               ("anthropic-version", "2023-06-01")]
              (Obj [("model", Str (modelName (LLM_CONFIG claude)));
                    ("messages",
                     Arr [Obj [("role", Str "user");
                               ("content", Str content)]]);
                    ("max_tokens", Num (maxTokens (LLM_CONFIG claude)));
                    ("temperature", or temperature (Num 0.7))])) ;;
       if negb (ok response)
       then
         error <- lift (json response) ;;
         inner <- get error "error" ;;
         reported <- lift (GetOptional (engine host) inner "message") ;;
         msg <- toString (or reported (Str "Claude API error")) ;;
         throw (mkError msg)
       else
         data <- lift (json response) ;;
         content <- get data "content" ;;
         first <- lift (GetOptional (engine host) content "0") ;;
         text <- lift (GetOptional (engine host) first "text") ;;
         ret (mkLLMResponse (or text (Str ""))
                (modelName (LLM_CONFIG claude)) None))
    (failed claude).

(** What [POST] reads of the request: the outcome of [request.json()]. *)
Record NextRequest : Type := mkNextRequest {
  requestJson : Completion Value
}.

(** [const { prompt, provider = process.env.DEFAULT_LLM_PROVIDER,
    options = {} } = body]: a default applies where the property reads as
    [undefined], and the default of [provider] is evaluated only then. *)
Definition destructure (body : Value) : Eff (Value * Value * Value) :=
  if nullish body then throw (typeError (engine host) (Destructure body))
  else
    prompt <- get body "prompt" ;;
    provider <- get body "provider" ;;
    provider <- match provider with
                | Undefined => readEnv "DEFAULT_LLM_PROVIDER"
                | _ => ret provider
                end ;;
    options <- get body "options" ;;
    let options := match options with
                   | Undefined => Obj []
                   | _ => options
                   end in
    ret (prompt, provider, options).

Definition respond (response : LLMResponse) : Eff NextResponse :=
  ret (NextResponse_json (LLMResponse_object response) None).

Definition POST (request : NextRequest) : Eff NextResponse :=
  tryCatch
    (body <- lift (requestJson request) ;;
     fields <- destructure body ;;
     let '(prompt, provider, options) := fields in
     if negb (truthy prompt)
     then ret (NextResponse_json (Obj [("error", Str "Prompt is required")])
                 (Some 400))
     else if strictEqualsString provider "gemini"
     then response <- getGeminiResponse prompt options ;; respond response
     else if strictEqualsString provider "openai"
     then response <- getOpenAIResponse prompt options ;; respond response
     else if strictEqualsString provider "claude"
     then response <- getClaudeResponse prompt options ;; respond response
     else ret (NextResponse_json (Obj [("error", Str "Invalid LLM provider")])
                 (Some 400)))
    (fun error =>
       ret (NextResponse_json
              (Obj [("error", Str "Failed to process request");
                    ("details", Str (message error))])
              (Some 500))).

End Route.

(** ** Vocabulary of the properties *)

(** The string literal of each member of the [LLMProvider] type. *)
Definition providerId (p : LLMProvider) : string :=
  match p with
  | gemini => "gemini"
  | openai => "openai"
  | claude => "claude"
  end.

(** The environment variable holding each provider's credential. *)
Definition credentialVariable (p : LLMProvider) : string :=
  match p with
  | gemini => "GEMINI_API_KEY"
  | openai => "OPENAI_API_KEY"
  | claude => "ANTHROPIC_API_KEY"
  end.

(** The adapter of each provider. *)
Definition adapter (host : Host) (p : LLMProvider)
  : Value -> Value -> Eff LLMResponse :=
  match p with
  | gemini => getGeminiResponse host
  | openai => getOpenAIResponse host
  | claude => getClaudeResponse host
  end.

Definition providers : list LLMProvider := [gemini; openai; claude].

Definition isCredential (name : string) : bool :=
  existsb (fun p => name =? credentialVariable p) providers.

(** An outbound provider call. *)
Definition outbound (ev : Event) : bool :=
  match ev with
  | EnvRead _ => false
  | GenerateContent _ _ | Fetch _ _ => true
  end.

(** A step of some adapter: a credential lookup or an outbound call. *)
Definition adapterStep (ev : Event) : bool :=
  match ev with
  | EnvRead name => isCredential name
  | GenerateContent _ _ | Fetch _ _ => true
  end.

(** The steps that belong to the adapter of [p]: the lookup of its
    credential and a call to its service. *)
Definition stepOf (p : LLMProvider) (ev : Event) : bool :=
  match ev, p with
  | EnvRead name, _ => name =? credentialVariable p
  | GenerateContent _ _, gemini => true
  | Fetch url _, openai => url =? "https://api.openai.com/v1/chat/completions"
  | Fetch url _, claude => url =? "https://api.anthropic.com/v1/messages"
  | _, _ => false
  end.

(** [v.p] where it cannot throw: [undefined] on anything but an object. *)
Definition field (v : Value) (p : string) : Value :=
  match v with
  | Obj props => lookup p props
  | _ => Undefined
  end.

(** The value the text [JSON.stringify(v)] denotes, which is what the
    receiver of a request body decodes: a number that is not finite is
    written [null], a negative zero is written 0, a property whose value is
    [undefined] is left out, and an [undefined] array element is written
    [null]. *)
Fixpoint serialised (v : Value) : Value :=
  match v with
  | Undefined => Undefined
  | Null => Null
  | Bool b => Bool b
  | Num x =>
      if is_finite x then (if is_zero x then Num 0 else Num x) else Null
  | Str s => Str s
  | Arr items =>
      Arr ((fix each (l : list Value) : list Value :=
              match l with
              | [] => []
              | x :: rest =>
                  match x with
                  | Undefined => Null
                  | _ => serialised x
                  end :: each rest
              end) items)
  | Obj props =>
      Obj ((fix each (l : list (string * Value)) : list (string * Value) :=
              match l with
              | [] => []
              | (k, x) :: rest =>
                  match x with
                  | Undefined => each rest
                  | _ => (k, serialised x) :: each rest
                  end
              end) props)
  end.

(** The call is made through [fetch]. *)
Definition viaFetch (ev : Event) : bool :=
  match ev with
  | Fetch _ _ => true
  | _ => false
  end.

(** The object in which the receiving service finds the generation
    settings of an outbound call.  For the two HTTP services it is the
    request body, as serialised.  The Gemini client takes its settings from
    the [config] property of its parameter object and reads no other
    property for them (the source marks its [generationConfig] property
    with [@ts-expect-error]: the client's parameter type does not have
    it). *)
Definition settings (ev : Event) : Value :=
  match ev with
  | EnvRead _ => Undefined
  | GenerateContent _ params => field params "config"
  | Fetch _ init => serialised (body init)
  end.

(** The rendered prompt an outbound call carries. *)
Definition promptSent (ev : Event) : Value :=
  match ev with
  | EnvRead _ => Undefined
  | GenerateContent _ params => field params "contents"
  | Fetch _ init =>
      match field (serialised (body init)) "messages" with
      | Arr items => field (last items Undefined) "content"
      | _ => Undefined
      end
  end.

Definition calls (trace : list Event) : list Event := filter outbound trace.

(** The request [request.json()] decodes to [body]. *)
Definition requestOf (body : Value) : NextRequest := mkNextRequest (Normal body).

(** What destructuring leaves in [provider] and [options], and the lookup
    of the default provider it performs, written out from the spec's
    [AnalysisRequest]: the provider defaults to the process-wide default,
    the options to an empty record. *)
Definition resolvedProvider (host : Host) (body : Value) : Value :=
  match field body "provider" with
  | Undefined => match env host "DEFAULT_LLM_PROVIDER" with
                 | Some s => Str s
                 | None => Undefined
                 end
  | v => v
  end.

Definition resolvedOptions (body : Value) : Value :=
  match field body "options" with
  | Undefined => Obj []
  | v => v
  end.

Definition defaultLookup (body : Value) : list Event :=
  match field body "provider" with
  | Undefined => [EnvRead "DEFAULT_LLM_PROVIDER"]
  | _ => []
  end.

(** The prompt builder of each provider. *)
Definition builder (host : Host) (p : LLMProvider)
  : Value -> Value -> Completion string :=
  match p with
  | gemini => formatJournalPromptForGemini host
  | openai => formatJournalPromptForOpenAI host
  | claude => formatJournalPromptForClaude host
  end.

(** The one outbound call of each adapter, given the credential, the
    rendered prompt and the options. *)
Definition outboundCall (p : LLMProvider) (key content : string)
  (options : Value) : Event :=
  match p with
  | gemini =>
      GenerateContent (Str key)
        (Obj [("model", Str "gemini-2.0-flash");
              ("contents", Str content);
              ("generationConfig",
               Obj [("maxOutputTokens", Num 8192);
                    ("temperature",
                     or (field options "temperature") (Num 0.7));
                    ("topP", or (field options "topP") (Num 0.95));
                    ("topK", or (field options "topK") (Num 40))])])
  | openai =>
      Fetch "https://api.openai.com/v1/chat/completions"
        (mkRequestInit "POST"
           [("Content-Type", "application/json");
            ("Authorization", "Bearer " ++ key)]
           (Obj [("model", Str "gpt-3.5-turbo");
                 ("messages",
                  Arr [Obj [("role", Str "system");
                            ("content",
                             Str "You are a professional journal analyzer providing insights and analysis.")];
                       Obj [("role", Str "user");
                            ("content", Str content)]]);
                 ("max_tokens", Num 4096);
                 ("temperature",
                  or (field options "temperature") (Num 0.7));
                 ("top_p", or (field options "topP") (Num 0.95))]))
  | claude =>
      Fetch "https://api.anthropic.com/v1/messages"
        (mkRequestInit "POST"
           [("Content-Type", "application/json");
            ("x-api-key", key);
            ("anthropic-version", "2023-06-01")]
           (Obj [("model", Str "claude-3-haiku-20240307");
                 ("messages",
                  Arr [Obj [("role", Str "user");
                            ("content", Str content)]]);
                 ("max_tokens", Num 4096);
                 ("temperature",
                  or (field options "temperature") (Num 0.7))]))
  end.

(** A result as the spec's [AnalysisResult] wants it. *)
Definition wellFormedResult (p : LLMProvider) (r : LLMResponse) : Prop :=
  model r = modelName (LLM_CONFIG p) /\
  (error r <> None -> text r = Str "").

(** The four optional analyses of the OpenAI and Claude builders. *)
Inductive Flag : Type :=
| includeWordCloud
| includeMoodDistribution
| includeGoals
| includeSocialInteractions.

Definition flagName (f : Flag) : string :=
  match f with
  | includeWordCloud => "includeWordCloud"
  | includeMoodDistribution => "includeMoodDistribution"
  | includeGoals => "includeGoals"
  | includeSocialInteractions => "includeSocialInteractions"
  end.

(** The instruction line of each flag, without its leading line feed. *)
Definition instruction (f : Flag) : string :=
  match f with
  | includeWordCloud => "6. Most frequently used words and their context"
  | includeMoodDistribution => "7. Mood distribution and emotional patterns"
  | includeGoals => "8. Goals mentioned and progress tracking"
  | includeSocialInteractions =>
      "9. People mentioned and relationship dynamics"
  end.

Definition flagSet (options : Value) (f : Flag) : bool :=
  truthy (field options (flagName f)).

(** What a flag contributes to the prompt. *)
Definition flagLine (options : Value) (f : Flag) : string :=
  if flagSet options f then LF ++ instruction f else "".

(** Number of line feeds of a text. *)
Fixpoint lineFeeds (s : string) : nat :=
  match s with
  | EmptyString => 0
  | String c rest => (if Ascii.eqb c "010" then 1 else 0) + lineFeeds rest
  end.

(** [needle] occurs in [s]. *)
Fixpoint occurs (needle s : string) : bool :=
  prefix needle s
  || match s with
     | EmptyString => false
     | String _ rest => occurs needle rest
     end.

(** [s] without its first [n] characters. *)
Fixpoint skip (n : nat) (s : string) : string :=
  match n, s with
  | S m, String _ rest => skip m rest
  | _, _ => s
  end.

(** [needle] occurs in [s] after an occurrence of [marker]. *)
Fixpoint occursAfter (marker needle s : string) : bool :=
  (prefix marker s && occurs needle (skip (String.length marker) s))
  || match s with
     | EmptyString => false
     | String _ rest => occursAfter marker needle rest
     end.

(** The claim on how a prompt closes, read generously: somewhere in the
    prompt the demand "Return ONLY ..." is followed, at any distance, by
    the opening brace of an example. *)
Definition directiveThenExample (rendered : string) : Prop :=
  exists before between after,
    rendered = before ++ "Return ONLY" ++ between ++ "{" ++ after.

(** A brace-delimited text. *)
Definition braced (shape : string) : Prop :=
  exists inner, shape = "{" ++ inner ++ "}".

(** The rendered prompt of a builder, or "" where rendering throws. *)
Definition rendered (c : Completion string) : string :=
  match c with
  | Normal s => s
  | Throw _ => ""
  end.

(** ** Vocabulary of the adapters' paths *)

(** The adapter of [p] gets as far as its outbound call: the credential
    [key] is set and not empty, the builder rendered [content], and the
    options are neither [null] nor [undefined]. *)
Definition ready (host : Host) (p : LLMProvider) (prompt options : Value)
  (key content : string) : Prop :=
  env host (credentialVariable p) = Some key /\
  truthy (Str key) = true /\
  builder host p prompt options = Normal content /\
  nullish options = false.

(** The outbound call [ev] is rejected with [e]: [fetch] rejects, or the
    Gemini client throws. *)
Definition rejected (host : Host) (ev : Event) (e : Error) : Prop :=
  match ev with
  | EnvRead _ => False
  | GenerateContent apiKey params =>
      generateContent host apiKey params = Throw e
  | Fetch url init => fetch host url init = Throw e
  end.

(** The Gemini client answers the call [ev] with [response]. *)
Definition replied (host : Host) (ev : Event)
  (response : GenerateContentResponse) : Prop :=
  match ev with
  | GenerateContent apiKey params =>
      generateContent host apiKey params = Normal response
  | _ => False
  end.

(** [fetch] resolves the call [ev] with [response]. *)
Definition answered (host : Host) (ev : Event) (response : Response) : Prop :=
  match ev with
  | Fetch url init => fetch host url init = Normal response
  | _ => False
  end.

(** The literal an HTTP adapter falls back to when a failed response
    reports no message. *)
Definition fallbackMessage (p : LLMProvider) : string :=
  match p with
  | gemini => ""
  | openai => "OpenAI API error"
  | claude => "Claude API error"
  end.

(** The model an outbound call names. *)
Definition modelSent (ev : Event) : Value :=
  match ev with
  | EnvRead _ => Undefined
  | GenerateContent _ params => field params "model"
  | Fetch _ init => field (body init) "model"
  end.

(** The outbound call [ev] goes to the service of [p] and presents the
    credential [key] the way [p] takes it, in headers that hold nothing
    else of the environment. *)
Definition presents (p : LLMProvider) (key : string) (ev : Event) : Prop :=
  match p with
  | gemini => exists params, ev = GenerateContent (Str key) params
  | openai =>
      exists payload,
        ev = Fetch "https://api.openai.com/v1/chat/completions"
               (mkRequestInit "POST"
                  [("Content-Type", "application/json");
                   ("Authorization", "Bearer " ++ key)]
                  payload)
  | claude =>
      exists payload,
        ev = Fetch "https://api.anthropic.com/v1/messages"
               (mkRequestInit "POST"
                  [("Content-Type", "application/json");
                   ("x-api-key", key);
                   ("anthropic-version", "2023-06-01")]
                  payload)
  end.

(** ** The journal modal (JournalModal.tsx): navigation

    The indices and lengths of the modal are JavaScript numbers holding
    integers far below 2^53, where the arithmetic of the handlers is exact;
    they are modelled as integers, and [%] as the truncating remainder. *)

Module JournalModal.

Inductive Direction : Type := next | prev.

(** [handleNavigateClick]: the index handed to [onNavigate], or [None]
    when the handler returns without calling it. *)
Definition handleNavigateClick (entriesLength currentIndex : Z)
  (direction : Direction) : option Z :=
  let totalEntries := entriesLength in
  if (totalEntries <=? 1)%Z then None
  else
    let newIndex :=
      match direction with
      | next => Z.rem (currentIndex + 1) totalEntries
      | prev => Z.rem (currentIndex - 1 + totalEntries) totalEntries
      end in
    Some newIndex.

(** What the handler reads of a journal entry: [mediaUrl?.image]. *)
Record MediaUrl : Type := mkMediaUrl { image : option (list string) }.

Record JournalEntry : Type := mkJournalEntry { mediaUrl : option MediaUrl }.

(** [entry?.mediaUrl?.image || []] *)
Definition imagesOf (entry : option JournalEntry) : list string :=
  match entry with
  | Some e => match mediaUrl e with
              | Some m => match image m with
                          | Some images => images
                          | None => []
                          end
              | None => []
              end
  | None => []
  end.

(** [handleImageNavigate]: the index handed to [setCurrentImageIndex], or
    [None] when the handler returns without calling it. *)
Definition handleImageNavigate (entry : option JournalEntry)
  (currentImageIndex : Z) (direction : Direction) : option Z :=
  let images := imagesOf entry in
  let length := Z.of_nat (List.length images) in
  if (length <=? 1)%Z then None
  else
    let newIndex :=
      match direction with
      | next => Z.rem (currentImageIndex + 1) length
      | prev => Z.rem (currentImageIndex - 1 + length) length
      end in
    Some newIndex.

End JournalModal.

(** ** The navigation bar (MainNavbar.tsx): which bar to show

    [pathname] is a string or [null]; [session] is an object or absent and
    is only tested for truth.  A flag that is [undefined] in the source
    (a [?.] on a [null] pathname) is only ever tested for truth too, and
    is kept as [false]. *)

Module MainNavbar.

(** [s.includes(needle)] and [s.startsWith(start)] *)
Definition includes (s needle : string) : bool := occurs needle s.

Definition startsWith (s start : string) : bool := prefix start s.

Record PageTypes : Type := mkPageTypes {
  isJournalPage : bool;
  isJournalEntry : bool;
  isHomePage : bool;
  isLoginPage : bool;
  isRegisterPage : bool;
  isUserPath : bool
}.

Definition pageTypes (pathname : option string) : PageTypes :=
  match pathname with
  | Some path =>
      mkPageTypes (includes path "/journal")
        (includes path "/journal-entry")
        (path =? "/")
        (path =? "/auth/login")
        (path =? "/auth/register")
        (startsWith path "/user")
  | None => mkPageTypes false false false false false false
  end.

Record MenuItem : Type := mkMenuItem {
  name : string;
  href : string;
  icon : string
}.

Definition publicMenuItems : list MenuItem :=
  [mkMenuItem "Home" "/" "HiHome";
   mkMenuItem "About" "/about" "HiUser";
   mkMenuItem "Contact" "/contact" "HiMail"].

Definition privateMenuItems : list MenuItem :=
  [mkMenuItem "Dashboard" "/user/dashboard" "HiHome";
   mkMenuItem "New Entry" "/user/journal-entry" "GiNotebook";
   mkMenuItem "Journal" "/user/journal/my-diary" "HiDocumentText";
   mkMenuItem "Analysis" "/user/analysis" "HiChartPie";
   mkMenuItem "Profile" "/user/profile" "HiUser"].

Definition shouldShowNavbar (session : bool) (pathname : option string)
  : bool :=
  let types := pageTypes pathname in
  if (isHomePage types || isLoginPage types || isRegisterPage types)
     && negb session
  then false
  else if session
          && (isUserPath types || isJournalPage types
              || isJournalEntry types || isHomePage types)
  then true
  else
    let validPaths :=
      if session then map href privateMenuItems
      else map href publicMenuItems in
    existsb (fun path => match pathname with
                         | Some current => startsWith current path
                         | None => false
                         end)
      validPaths.

Definition shouldUseSideNav (pathname : option string) : bool :=
  let types := pageTypes pathname in
  isJournalPage types || isJournalEntry types || isUserPath types.

End MainNavbar.

(** ** Sample hosts and requests *)

Definition sampleEngine : Engine :=
  mkEngine (fun _ => "NaN") (fun _ => "TypeError").

(** A host with an empty environment; its network is never reached. *)
Definition bareHost : Host :=
  mkHost sampleEngine
    (fun _ => None)
    (fun _ _ => Throw (mkError "network unreachable"))
    (fun _ _ => Throw (mkError "network unreachable")).

(** A host with the three credentials set and stub services that answer
    "ok" in each provider's envelope. *)
Definition stubHost : Host :=
  mkHost sampleEngine
    (fun name => if isCredential name then Some "secret" else None)
    (fun _ _ => Normal (mkGenerateContentResponse (Str "ok")))
    (fun url _ =>
       Normal
         (mkResponse true
            (Normal
               (if url =? "https://api.openai.com/v1/chat/completions"
                then Obj [("choices",
                           Arr [Obj [("message",
                                      Obj [("content", Str "ok")])]])]
                else Obj [("content", Arr [Obj [("text", Str "ok")]])])))).

(** [{prompt: prompt, provider: provider}] *)
Definition sampleBody (prompt provider : string) : Value :=
  Obj [("prompt", Str prompt); ("provider", Str provider)].

(** [{prompt: "x", provider: "claude", options: {temperature: 0.2}}] *)
Definition bodyWithTemperature : Value :=
  Obj [("prompt", Str "x");
       ("provider", Str "claude");
       ("options", Obj [("temperature", Num 0.2)])].

(** The first outbound call of a request on a host. *)
Definition firstCall (host : Host) (body : Value) : Event :=
  hd (EnvRead "") (calls (fst (POST host (requestOf body)))).

(** A host with the three credentials set whose services give the same
    answer to every call. *)
Definition serviceHost (reply : Completion GenerateContentResponse)
  (response : Completion Response) : Host :=
  mkHost sampleEngine
    (fun name => if isCredential name then Some "secret" else None)
    (fun _ _ => reply)
    (fun _ _ => response).

(** The prompt a builder renders for the text "x" and no options. *)
Definition samplePrompt (p : LLMProvider) : string :=
  rendered (builder bareHost p (Str "x") (Obj [])).

(** [stubHost] with DEFAULT_LLM_PROVIDER set to "gemini". *)
Definition defaultingHost : Host :=
  mkHost sampleEngine
    (fun name =>
       if name =? "DEFAULT_LLM_PROVIDER" then Some "gemini"
       else env stubHost name)
    (generateContent stubHost)
    (fetch stubHost).

(** A host whose credentials are set to the empty string. *)
Definition blankKeysHost : Host :=
  mkHost sampleEngine
    (fun name => if isCredential name then Some "" else None)
    (generateContent stubHost)
    (fetch stubHost).

(** A host whose HTTP services refuse every call, reporting "Rate limit". *)
Definition refusingHost : Host :=
  serviceHost (Throw (mkError "quota exceeded"))
    (Normal (mkResponse false
               (Normal (Obj [("error",
                              Obj [("message", Str "Rate limit")])])))).

(** A host whose HTTP services answer 200 with an empty envelope. *)
Definition emptyHost : Host :=
  serviceHost (Normal (mkGenerateContentResponse Undefined))
    (Normal (mkResponse true
               (Normal (Obj [("choices", Arr []); ("content", Arr [])])))).

(** ** Properties *)

(** *** Reasoning about computations *)

(** Case analysis on the innermost undetermined step of a computation. *)
Ltac split_step :=
  match goal with
  | |- context [match ?x with _ => _ end] =>
      lazymatch x with
      | context [match _ with _ => _ end] => fail
      | _ => destruct x eqn:?
      end
  end.

Ltac run := cbn [bind tryCatch ret throw lift negb app].

Ltac run_all := repeat (split_step; run).

Lemma Get_nullish (e : Engine) (v : Value) (p : string) :
  nullish v = true -> Get e v p = Throw (typeError e (ReadProperty v p)).
Proof. destruct v; simpl; intros H; try discriminate; reflexivity. Qed.

(** Off [null] and [undefined], a named property reads as [field] says. *)
Lemma Get_field (e : Engine) (v : Value) (p : string) :
  nullish v = false -> (p =? "0") = false -> Get e v p = Normal (field v p).
Proof.
  destruct v; simpl; intros H H0; try discriminate; try rewrite H0;
    reflexivity.
Qed.

Ltac read_options options :=
  let Hn := fresh "Hnullish" in
  destruct (nullish options) eqn:Hn;
  [ rewrite ?(Get_nullish _ options) by assumption
  | rewrite ?(Get_field _ options) by (assumption || reflexivity) ].

(** Closes one path of an adapter: the result is well formed, and the
    trace is the credential lookup alone or followed by the one call. *)
Ltac adapter_path key content :=
  eexists; eexists; (split; [reflexivity|]);
  cbn [model error text LLM_CONFIG modelName credentialVariable];
  (split; [split; [reflexivity | congruence] | ]);
  solve [ now left
        | right; exists key, content; repeat split;
          solve [ reflexivity | assumption
                | match goal with
                  | H : negb ?b = false |- ?b = true =>
                      now destruct b
                  end ] ].

(** Every adapter returns a result, on every path; the result is well
    formed; and the adapter either stops after looking its credential up or
    goes on to make exactly one call, with the arguments [outboundCall]
    lists. *)
Lemma adapter_runs (host : Host) (p : LLMProvider) (prompt options : Value) :
  exists t r,
    adapter host p prompt options = (t, Normal r) /\
    wellFormedResult p r /\
    (t = [EnvRead (credentialVariable p)] \/
     exists key content,
       env host (credentialVariable p) = Some key /\
       truthy (Str key) = true /\
       builder host p prompt options = Normal content /\
       nullish options = false /\
       t = [EnvRead (credentialVariable p);
            outboundCall p key content options]).
Proof.
  destruct p; unfold adapter, builder, wellFormedResult, outboundCall.
  - unfold getGeminiResponse, get, toString, readEnv, callGenerateContent,
      failed.
    destruct (env host "GEMINI_API_KEY") as [key|] eqn:Hkey; run.
    2: simpl; adapter_path "" "".
    destruct (formatJournalPromptForGemini host prompt options)
      as [content|e] eqn:Hfmt; run.
    2: run_all; adapter_path "" "".
    read_options options; run_all; adapter_path key content.
  - unfold getOpenAIResponse, get, toString, readEnv, callFetch, failed.
    destruct (env host "OPENAI_API_KEY") as [key|] eqn:Hkey; run.
    2: simpl; adapter_path "" "".
    simpl ToString.
    destruct (formatJournalPromptForOpenAI host prompt options)
      as [content|e] eqn:Hfmt; run.
    2: run_all; adapter_path "" "".
    read_options options; run_all; adapter_path key content.
  - unfold getClaudeResponse, get, toString, readEnv, callFetch, failed.
    destruct (env host "ANTHROPIC_API_KEY") as [key|] eqn:Hkey; run.
    2: simpl; adapter_path "" "".
    simpl ToString.
    destruct (formatJournalPromptForClaude host prompt options)
      as [content|e] eqn:Hfmt; run.
    2: run_all; adapter_path "" "".
    read_options options; run_all; adapter_path key content.
Qed.

(** Destructuring a decoded body that is not [null] yields the prompt, the
    resolved provider and the resolved options, and reads the environment
    only for the default provider. *)
Lemma destructure_decoded (host : Host) (body : Value) :
  nullish body = false ->
  destructure host body =
    (defaultLookup body,
     Normal (field body "prompt", resolvedProvider host body,
             resolvedOptions body)).
Proof.
  intros Hbody. unfold destructure, get, readEnv.
  rewrite Hbody, !Get_field by (assumption || reflexivity). run.
  unfold defaultLookup, resolvedProvider, resolvedOptions.
  destruct (field body "provider"); destruct (field body "options"); run;
    reflexivity.
Qed.

Lemma defaultLookup_quiet (body : Value) :
  existsb adapterStep (defaultLookup body) = false.
Proof. unfold defaultLookup. destruct (field body "provider"); reflexivity. Qed.

Lemma defaultLookup_steps (body : Value) (ev : Event) :
  In ev (defaultLookup body) -> adapterStep ev = false.
Proof.
  unfold defaultLookup.
  destruct (field body "provider"); simpl; intros H; try contradiction.
  destruct H as [<- | []]. reflexivity.
Qed.

Lemma strictEqualsString_providerId (v : Value) (p : LLMProvider) :
  strictEqualsString v (providerId p) = true <-> v = Str (providerId p).
Proof.
  destruct v; simpl; split; intros H; try discriminate.
  - apply String.eqb_eq in H. now subst.
  - inversion H. apply String.eqb_refl.
Qed.

(** [POST] on a decoded body, up to the [switch]. *)
Lemma POST_decoded (host : Host) (body : Value) :
  nullish body = false ->
  POST host (requestOf body) =
    let prompt := field body "prompt" in
    let provider := resolvedProvider host body in
    let options := resolvedOptions body in
    if negb (truthy prompt)
    then (defaultLookup body,
          Normal (mkNextResponse 400
                    (Obj [("error", Str "Prompt is required")])))
    else
      match
        (if strictEqualsString provider "gemini" then Some gemini
         else if strictEqualsString provider "openai" then Some openai
         else if strictEqualsString provider "claude" then Some claude
         else None)
      with
      | Some p =>
          match adapter host p prompt options with
          | (t, Normal r) =>
              ((defaultLookup body ++ t)%list,
               Normal (mkNextResponse 200 (LLMResponse_object r)))
          | (t, Throw e) =>
              ((defaultLookup body ++ t)%list,
               Normal (mkNextResponse 500
                         (Obj [("error", Str "Failed to process request");
                               ("details", Str (message e))])))
          end
      | None =>
          (defaultLookup body,
           Normal (mkNextResponse 400
                     (Obj [("error", Str "Invalid LLM provider")])))
      end.
Proof.
  intros Hbody. unfold POST, requestOf. cbn [requestJson]. run.
  rewrite (destructure_decoded host body Hbody). run.
  cbv zeta.
  destruct (truthy (field body "prompt")); run.
  2: now rewrite !app_nil_r.
  unfold respond, NextResponse_json.
  destruct (strictEqualsString (resolvedProvider host body) "gemini").
  { unfold adapter.
    destruct (getGeminiResponse host (field body "prompt")
                (resolvedOptions body)) as [t [r|e]]; run;
      now rewrite !app_nil_r. }
  destruct (strictEqualsString (resolvedProvider host body) "openai").
  { unfold adapter.
    destruct (getOpenAIResponse host (field body "prompt")
                (resolvedOptions body)) as [t [r|e]]; run;
      now rewrite !app_nil_r. }
  destruct (strictEqualsString (resolvedProvider host body) "claude").
  { unfold adapter.
    destruct (getClaudeResponse host (field body "prompt")
                (resolvedOptions body)) as [t [r|e]]; run;
      now rewrite !app_nil_r. }
  run. now rewrite !app_nil_r.
Qed.

(** The fatal path: a body that does not decode, or decodes to [null],
    is answered with status 500 and the thrown message, before anything
    else is done. *)
Lemma POST_undecodable (host : Host) (e : Error) :
  POST host (mkNextRequest (Throw e)) =
    ([], Normal (mkNextResponse 500
                   (Obj [("error", Str "Failed to process request");
                         ("details", Str (message e))]))).
Proof. reflexivity. Qed.

Lemma POST_null_body (host : Host) (body : Value) :
  nullish body = true ->
  POST host (requestOf body) =
    ([], Normal (mkNextResponse 500
                   (Obj [("error", Str "Failed to process request");
                         ("details",
                          Str (faultMessage (engine host)
                                 (Destructure body)))]))).
Proof. destruct body; try discriminate; reflexivity. Qed.

Lemma switch_recognized (provider : Value) (p : LLMProvider) :
  provider = Str (providerId p) ->
  (if strictEqualsString provider "gemini" then Some gemini
   else if strictEqualsString provider "openai" then Some openai
   else if strictEqualsString provider "claude" then Some claude
   else None) = Some p.
Proof. intros ->. destruct p; reflexivity. Qed.

Lemma switch_default (provider : Value) :
  (forall p, provider <> Str (providerId p)) ->
  (if strictEqualsString provider "gemini" then Some gemini
   else if strictEqualsString provider "openai" then Some openai
   else if strictEqualsString provider "claude" then Some claude
   else None) = None.
Proof.
  intros H.
  destruct (strictEqualsString provider "gemini") eqn:Hg.
  { apply (strictEqualsString_providerId provider gemini) in Hg.
    now destruct (H gemini). }
  destruct (strictEqualsString provider "openai") eqn:Ho.
  { apply (strictEqualsString_providerId provider openai) in Ho.
    now destruct (H openai). }
  destruct (strictEqualsString provider "claude") eqn:Hc.
  { apply (strictEqualsString_providerId provider claude) in Hc.
    now destruct (H claude). }
  reflexivity.
Qed.

(** With its credential unset, an adapter stops after the lookup and
    reports the missing variable in its result. *)
Lemma adapter_missing_credential (host : Host) (p : LLMProvider)
  (prompt options : Value) :
  env host (credentialVariable p) = None ->
  adapter host p prompt options =
    ([EnvRead (credentialVariable p)],
     Normal (mkLLMResponse (Str "") (modelName (LLM_CONFIG p))
               (Some (credentialVariable p
                      ++ " is not defined in environment variables")))).
Proof.
  intros Henv.
  destruct p; simpl in Henv; unfold adapter, getGeminiResponse,
    getOpenAIResponse, getClaudeResponse, readEnv, failed;
    rewrite Henv; reflexivity.
Qed.

(** The steps of an adapter's trace are its own, and at most one of them is
    an outbound call. *)
Lemma adapter_trace_own (host : Host) (p : LLMProvider)
  (prompt options : Value) :
  (forall ev, In ev (fst (adapter host p prompt options)) ->
              stepOf p ev = true) /\
  length (calls (fst (adapter host p prompt options))) <= 1.
Proof.
  destruct (adapter_runs host p prompt options)
    as (t & r & Hrun & _ & [Ht | (key & content & _ & _ & _ & _ & Ht)]);
    rewrite Hrun; subst t; cbn [fst].
  - split.
    + intros ev [<- | []]. destruct p; reflexivity.
    + simpl. lia.
  - split.
    + intros ev [<- | [<- | []]]; destruct p; reflexivity.
    + destruct p; simpl; lia.
Qed.

(** *** The dispatcher *)

(** C1.  A request whose [prompt] field is absent or the empty string is
    answered with status 400 and the body [{error: "Prompt is required"}],
    and no adapter step is taken: the trace holds no credential lookup and
    no outbound call. *)
Theorem POST_prompt_required (host : Host) (body : Value) :
  nullish body = false ->
  field body "prompt" = Undefined \/ field body "prompt" = Str "" ->
  POST host (requestOf body) =
    (defaultLookup body,
     Normal (mkNextResponse 400 (Obj [("error", Str "Prompt is required")])))
  /\ existsb adapterStep (fst (POST host (requestOf body))) = false.
Proof.
  intros Hbody Hprompt.
  assert (Hfalsy : truthy (field body "prompt") = false)
    by (destruct Hprompt as [-> | ->]; reflexivity).
  rewrite (POST_decoded host body Hbody). cbv zeta.
  rewrite Hfalsy. cbn [negb fst]. split; [reflexivity|].
  apply defaultLookup_quiet.
Qed.

Lemma POST_prompt_required_witness :
  (nullish (sampleBody "" "gemini") = false /\
   (field (sampleBody "" "gemini") "prompt" = Undefined \/
    field (sampleBody "" "gemini") "prompt" = Str "")) /\
  POST stubHost (requestOf (sampleBody "" "gemini")) =
    ([], Normal (mkNextResponse 400
                   (Obj [("error", Str "Prompt is required")])))
  /\ existsb adapterStep
       (fst (POST stubHost (requestOf (sampleBody "" "gemini")))) = false.
Proof.
  split.
  - split; [reflexivity | right; reflexivity].
  - apply (POST_prompt_required stubHost (sampleBody "" "gemini"));
      [reflexivity | right; reflexivity].
Defined.

(** C2.  A request with a truthy (in particular, non-empty) prompt whose
    resolved provider is none of 'gemini', 'openai', 'claude' is answered
    with status 400 and the body [{error: "Invalid LLM provider"}], and no
    adapter step is taken. *)
Theorem POST_invalid_provider (host : Host) (body : Value) :
  nullish body = false ->
  truthy (field body "prompt") = true ->
  (forall p, resolvedProvider host body <> Str (providerId p)) ->
  POST host (requestOf body) =
    (defaultLookup body,
     Normal (mkNextResponse 400
               (Obj [("error", Str "Invalid LLM provider")])))
  /\ existsb adapterStep (fst (POST host (requestOf body))) = false.
Proof.
  intros Hbody Hprompt Hprovider.
  rewrite (POST_decoded host body Hbody). cbv zeta.
  rewrite Hprompt, (switch_default _ Hprovider). cbn [negb fst].
  split; [reflexivity|]. apply defaultLookup_quiet.
Qed.

Lemma POST_invalid_provider_witness :
  (nullish (sampleBody "x" "unknown") = false /\
   truthy (field (sampleBody "x" "unknown") "prompt") = true /\
   (forall p, resolvedProvider stubHost (sampleBody "x" "unknown")
              <> Str (providerId p))) /\
  POST stubHost (requestOf (sampleBody "x" "unknown")) =
    ([], Normal (mkNextResponse 400
                   (Obj [("error", Str "Invalid LLM provider")])))
  /\ existsb adapterStep
       (fst (POST stubHost (requestOf (sampleBody "x" "unknown")))) = false.
Proof.
  assert (H : forall p, resolvedProvider stubHost (sampleBody "x" "unknown")
                        <> Str (providerId p))
    by (intros p; destruct p; discriminate).
  split.
  - repeat split; [exact H].
  - apply (POST_invalid_provider stubHost (sampleBody "x" "unknown"));
      [reflexivity | reflexivity | exact H].
Defined.

(** C10.  When the request has no [provider] field and DEFAULT_LLM_PROVIDER
    is not set, a request with a truthy prompt is answered with status 400
    and the body [{error: "Invalid LLM provider"}], not with 500, and the
    only step taken is the lookup of the default provider. *)
Theorem POST_no_default_provider (host : Host) (body : Value) :
  nullish body = false ->
  truthy (field body "prompt") = true ->
  field body "provider" = Undefined ->
  env host "DEFAULT_LLM_PROVIDER" = None ->
  POST host (requestOf body) =
    ([EnvRead "DEFAULT_LLM_PROVIDER"],
     Normal (mkNextResponse 400
               (Obj [("error", Str "Invalid LLM provider")])))
  /\ existsb adapterStep (fst (POST host (requestOf body))) = false.
Proof.
  intros Hbody Hprompt Hprovider Henv.
  assert (Hresolved : resolvedProvider host body = Undefined)
    by (unfold resolvedProvider; now rewrite Hprovider, Henv).
  rewrite (POST_decoded host body Hbody). cbv zeta.
  rewrite Hprompt, Hresolved. unfold defaultLookup. rewrite Hprovider.
  split; reflexivity.
Qed.

Lemma POST_no_default_provider_witness :
  (nullish (Obj [("prompt", Str "x")]) = false /\
   truthy (field (Obj [("prompt", Str "x")]) "prompt") = true /\
   field (Obj [("prompt", Str "x")]) "provider" = Undefined /\
   env stubHost "DEFAULT_LLM_PROVIDER" = None) /\
  POST stubHost (requestOf (Obj [("prompt", Str "x")])) =
    ([EnvRead "DEFAULT_LLM_PROVIDER"],
     Normal (mkNextResponse 400
               (Obj [("error", Str "Invalid LLM provider")])))
  /\ existsb adapterStep
       (fst (POST stubHost (requestOf (Obj [("prompt", Str "x")])))) = false.
Proof.
  split.
  - repeat split.
  - apply (POST_no_default_provider stubHost (Obj [("prompt", Str "x")]));
      reflexivity.
Defined.

(** C3.  A request with a truthy prompt that names a recognized provider
    whose credential variable is unset is answered with status 200 and a
    result whose [text] is "", whose [model] is the provider's configured
    model and whose [error] names the missing variable; no outbound call is
    made. *)
Theorem POST_missing_credential (host : Host) (body : Value)
  (p : LLMProvider) :
  nullish body = false ->
  truthy (field body "prompt") = true ->
  resolvedProvider host body = Str (providerId p) ->
  env host (credentialVariable p) = None ->
  POST host (requestOf body) =
    ((defaultLookup body ++ [EnvRead (credentialVariable p)])%list,
     Normal (mkNextResponse 200
               (Obj [("text", Str "");
                     ("model", Str (modelName (LLM_CONFIG p)));
                     ("error",
                      Str (credentialVariable p
                           ++ " is not defined in environment variables"))]))).
Proof.
  intros Hbody Hprompt Hprovider Henv.
  rewrite (POST_decoded host body Hbody). cbv zeta.
  rewrite Hprompt, (switch_recognized _ p Hprovider).
  rewrite (adapter_missing_credential host p _ _ Henv). reflexivity.
Qed.

Lemma POST_missing_credential_witness :
  (nullish (sampleBody "x" "openai") = false /\
   truthy (field (sampleBody "x" "openai") "prompt") = true /\
   resolvedProvider bareHost (sampleBody "x" "openai")
     = Str (providerId openai) /\
   env bareHost (credentialVariable openai) = None) /\
  POST bareHost (requestOf (sampleBody "x" "openai")) =
    ([EnvRead "OPENAI_API_KEY"],
     Normal (mkNextResponse 200
               (Obj [("text", Str "");
                     ("model", Str "gpt-3.5-turbo");
                     ("error",
                      Str "OPENAI_API_KEY is not defined in environment variables")]))).
Proof.
  split.
  - repeat split.
  - apply (POST_missing_credential bareHost (sampleBody "x" "openai") openai);
      reflexivity.
Defined.

(** C5.  A request with a truthy prompt that names a supported provider is
    served by that provider's adapter alone: the response is the adapter's
    result with status 200, every adapter step of the request is a step of
    that adapter, and at most one outbound call is made. *)
Theorem POST_dispatches_one_adapter (host : Host) (body : Value)
  (p : LLMProvider) :
  nullish body = false ->
  truthy (field body "prompt") = true ->
  resolvedProvider host body = Str (providerId p) ->
  exists t r,
    adapter host p (field body "prompt") (resolvedOptions body)
      = (t, Normal r) /\
    POST host (requestOf body) =
      ((defaultLookup body ++ t)%list,
       Normal (mkNextResponse 200 (LLMResponse_object r))) /\
    (forall ev, In ev (fst (POST host (requestOf body))) ->
                adapterStep ev = true -> stepOf p ev = true) /\
    length (calls (fst (POST host (requestOf body)))) <= 1.
Proof.
  intros Hbody Hprompt Hprovider.
  destruct (adapter_runs host p (field body "prompt") (resolvedOptions body))
    as (t & r & Hrun & _ & _).
  destruct (adapter_trace_own host p (field body "prompt")
              (resolvedOptions body)) as [Hown Hone].
  rewrite Hrun in Hown, Hone. cbn [fst] in Hown, Hone.
  exists t, r. split; [exact Hrun|].
  rewrite (POST_decoded host body Hbody). cbv zeta.
  rewrite Hprompt, (switch_recognized _ p Hprovider), Hrun. cbn [negb fst].
  split; [reflexivity|]. split.
  - intros ev Hin Hstep. apply in_app_or in Hin. destruct Hin as [Hin|Hin].
    + rewrite (defaultLookup_steps body ev Hin) in Hstep. discriminate.
    + now apply Hown.
  - unfold calls in *. rewrite filter_app, length_app.
    assert (Hd : filter outbound (defaultLookup body) = [])
      by (unfold defaultLookup; destruct (field body "provider");
          reflexivity).
    rewrite Hd. simpl. exact Hone.
Qed.

Lemma POST_dispatches_one_adapter_witness :
  (nullish (sampleBody "Today was good" "gemini") = false /\
   truthy (field (sampleBody "Today was good" "gemini") "prompt") = true /\
   resolvedProvider stubHost (sampleBody "Today was good" "gemini")
     = Str (providerId gemini)) /\
  exists t r,
    adapter stubHost gemini
      (field (sampleBody "Today was good" "gemini") "prompt")
      (resolvedOptions (sampleBody "Today was good" "gemini"))
      = (t, Normal r) /\
    POST stubHost (requestOf (sampleBody "Today was good" "gemini")) =
      ((defaultLookup (sampleBody "Today was good" "gemini") ++ t)%list,
       Normal (mkNextResponse 200 (LLMResponse_object r))) /\
    (forall ev,
        In ev (fst (POST stubHost
                      (requestOf (sampleBody "Today was good" "gemini")))) ->
        adapterStep ev = true -> stepOf gemini ev = true) /\
    length (calls (fst (POST stubHost
                          (requestOf (sampleBody "Today was good" "gemini")))))
      <= 1.
Proof.
  split.
  - repeat split.
  - apply (POST_dispatches_one_adapter stubHost
             (sampleBody "Today was good" "gemini") gemini); reflexivity.
Defined.

(** Scenario 1 of the spec: the Gemini stub answers "ok". *)
Example POST_gemini_stub :
  snd (POST stubHost (requestOf (sampleBody "Today was good" "gemini"))) =
    Normal (mkNextResponse 200
              (Obj [("text", Str "ok"); ("model", Str "gemini-2.0-flash")])).
Proof. reflexivity. Qed.

(** *** The adapters *)

(** C4.  Each of the three adapters returns a result on every execution
    path, failures included; the result's [model] is the adapter's
    configured model, and whenever its [error] is set its [text] is "". *)
Theorem adapters_well_formed (host : Host) (prompt options : Value) :
  (exists t r, getGeminiResponse host prompt options = (t, Normal r) /\
               wellFormedResult gemini r) /\
  (exists t r, getOpenAIResponse host prompt options = (t, Normal r) /\
               wellFormedResult openai r) /\
  (exists t r, getClaudeResponse host prompt options = (t, Normal r) /\
               wellFormedResult claude r).
Proof.
  repeat split.
  - destruct (adapter_runs host gemini prompt options)
      as (t & r & Hrun & Hr & _). now exists t, r.
  - destruct (adapter_runs host openai prompt options)
      as (t & r & Hrun & Hr & _). now exists t, r.
  - destruct (adapter_runs host claude prompt options)
      as (t & r & Hrun & Hr & _). now exists t, r.
Qed.

(** *** Strings *)

Lemma append_assoc (a b c : string) : (a ++ b) ++ c = a ++ b ++ c.
Proof. induction a as [|x a IH]; simpl; [reflexivity | now rewrite IH]. Qed.

Lemma append_empty_r (a : string) : a ++ "" = a.
Proof. induction a as [|x a IH]; simpl; [reflexivity | now rewrite IH]. Qed.

Lemma lineFeeds_append (a b : string) :
  lineFeeds (a ++ b) = lineFeeds a + lineFeeds b.
Proof.
  induction a as [|x a IH]; simpl; [reflexivity | rewrite IH; lia].
Qed.

Lemma prefix_append (m r : string) : prefix m (m ++ r) = true.
Proof.
  induction m as [|x m IH]; simpl.
  - now destruct r.
  - destruct (ascii_dec x x); [exact IH | contradiction].
Qed.

Lemma skip_append (m r : string) : skip (String.length m) (m ++ r) = r.
Proof. induction m as [|x m IH]; simpl; [now destruct r | exact IH]. Qed.

Lemma occurs_prefix (needle s : string) :
  prefix needle s = true -> occurs needle s = true.
Proof.
  intros H.
  destruct s as [|c s];
    [ change (prefix needle "" || false = true)
    | change (prefix needle (String c s) || occurs needle s = true) ];
    rewrite H; reflexivity.
Qed.

Lemma occurs_append (a needle b : string) :
  occurs needle (a ++ needle ++ b) = true.
Proof.
  induction a as [|x a IH].
  - cbn [append]. apply occurs_prefix, prefix_append.
  - simpl. rewrite IH. apply orb_true_r.
Qed.

Lemma occursAfter_here (marker needle s : string) :
  prefix marker s = true ->
  occurs needle (skip (String.length marker) s) = true ->
  occursAfter marker needle s = true.
Proof.
  intros H1 H2.
  destruct s as [|c s];
    [ change (prefix marker ""
              && occurs needle (skip (String.length marker) "")
              || false = true)
    | change (prefix marker (String c s)
              && occurs needle (skip (String.length marker) (String c s))
              || occursAfter marker needle s = true) ];
    rewrite H1, H2; reflexivity.
Qed.

(** If a text has [needle] somewhere after [marker], [occursAfter] finds
    it. *)
Lemma occursAfter_complete (before marker between needle after : string) :
  occursAfter marker needle
    (before ++ marker ++ between ++ needle ++ after) = true.
Proof.
  induction before as [|x before IH].
  - cbn [append]. apply occursAfter_here.
    + apply prefix_append.
    + rewrite skip_append. apply occurs_append.
  - simpl. rewrite IH. apply orb_true_r.
Qed.

(** *** The prompt builders *)

(** The OpenAI prompt in one piece: the opening, the text, the five base
    analyses, the line of each flag that is set, the JSON instruction. *)
Lemma openai_rendered (host : Host) (s : string) (options : Value) :
  nullish options = false ->
  formatJournalPromptForOpenAI host (Str s) options =
    Normal (openaiOpening ++ s ++ openaiInstructions
            ++ flagLine options includeWordCloud
            ++ flagLine options includeMoodDistribution
            ++ flagLine options includeGoals
            ++ flagLine options includeSocialInteractions
            ++ openaiClosing).
Proof.
  intros Hoptions. unfold formatJournalPromptForOpenAI.
  cbn [ToString bindC].
  rewrite !Get_field by (assumption || reflexivity). cbn [bindC].
  unfold appendIf, flagLine, flagSet. cbn [flagName instruction].
  destruct (truthy (field options "includeWordCloud"));
    destruct (truthy (field options "includeMoodDistribution"));
    destruct (truthy (field options "includeGoals"));
    destruct (truthy (field options "includeSocialInteractions"));
    rewrite !append_assoc; reflexivity.
Qed.

Lemma claude_rendered (host : Host) (s : string) (options : Value) :
  nullish options = false ->
  formatJournalPromptForClaude host (Str s) options =
    Normal (claudeOpening ++ s ++ claudeInstructions
            ++ flagLine options includeWordCloud
            ++ flagLine options includeMoodDistribution
            ++ flagLine options includeGoals
            ++ flagLine options includeSocialInteractions
            ++ claudeClosing).
Proof.
  intros Hoptions. unfold formatJournalPromptForClaude.
  cbn [ToString bindC].
  rewrite !Get_field by (assumption || reflexivity). cbn [bindC].
  unfold appendIf, flagLine, flagSet. cbn [flagName instruction].
  destruct (truthy (field options "includeWordCloud"));
    destruct (truthy (field options "includeMoodDistribution"));
    destruct (truthy (field options "includeGoals"));
    destruct (truthy (field options "includeSocialInteractions"));
    rewrite !append_assoc; reflexivity.
Qed.

Lemma gemini_rendered (host : Host) (s : string) (options : Value) :
  formatJournalPromptForGemini host (Str s) options =
    Normal (geminiOpening ++ s ++ geminiInstructions).
Proof. reflexivity. Qed.

(** Setting one flag in a prompt of the shape the two builders produce
    inserts that flag's line and changes nothing else. *)
Lemma flag_inserts_line (opening s tasks closing : string)
  (options options' : Value) (f : Flag) :
  flagSet options f = false ->
  flagSet options' f = true ->
  (forall g, g <> f -> flagSet options' g = flagSet options g) ->
  exists before after,
    opening ++ s ++ tasks
      ++ flagLine options includeWordCloud
      ++ flagLine options includeMoodDistribution
      ++ flagLine options includeGoals
      ++ flagLine options includeSocialInteractions
      ++ closing = before ++ after /\
    opening ++ s ++ tasks
      ++ flagLine options' includeWordCloud
      ++ flagLine options' includeMoodDistribution
      ++ flagLine options' includeGoals
      ++ flagLine options' includeSocialInteractions
      ++ closing = before ++ (LF ++ instruction f) ++ after.
Proof.
  intros Hunset Hset Hothers.
  assert (Hsame : forall g, g <> f -> flagLine options' g = flagLine options g)
    by (intros g Hg; unfold flagLine; now rewrite (Hothers g Hg)).
  assert (Hoff : flagLine options f = "")
    by (unfold flagLine; now rewrite Hunset).
  assert (Hon : flagLine options' f = LF ++ instruction f)
    by (unfold flagLine; now rewrite Hset).
  destruct f.
  - exists (opening ++ s ++ tasks),
      (flagLine options includeMoodDistribution
       ++ flagLine options includeGoals
       ++ flagLine options includeSocialInteractions ++ closing).
    rewrite Hoff, Hon, !Hsame by discriminate.
    rewrite !append_assoc. split; reflexivity.
  - exists (opening ++ s ++ tasks ++ flagLine options includeWordCloud),
      (flagLine options includeGoals
       ++ flagLine options includeSocialInteractions ++ closing).
    rewrite Hoff, Hon, !Hsame by discriminate.
    rewrite !append_assoc. split; reflexivity.
  - exists (opening ++ s ++ tasks ++ flagLine options includeWordCloud
            ++ flagLine options includeMoodDistribution),
      (flagLine options includeSocialInteractions ++ closing).
    rewrite Hoff, Hon, !Hsame by discriminate.
    rewrite !append_assoc. split; reflexivity.
  - exists (opening ++ s ++ tasks ++ flagLine options includeWordCloud
            ++ flagLine options includeMoodDistribution
            ++ flagLine options includeGoals),
      closing.
    rewrite Hoff, Hon, !Hsame by discriminate.
    rewrite !append_assoc. split; reflexivity.
Qed.

(** C6.  In the OpenAI and Claude builders, each of the four flags, when
    set, adds exactly one instruction line to the rendered prompt; the line
    is not added when the flag is unset; and this holds whatever the other
    three flags are: the prompt with the flag set is the prompt with the
    flag unset with that one line inserted. *)
Theorem flag_adds_one_line (host : Host) (p : LLMProvider) (s : string)
  (options options' : Value) (f : Flag) :
  p = openai \/ p = claude ->
  nullish options = false ->
  nullish options' = false ->
  flagSet options f = false ->
  flagSet options' f = true ->
  (forall g, g <> f -> flagSet options' g = flagSet options g) ->
  exists before after,
    builder host p (Str s) options = Normal (before ++ after) /\
    builder host p (Str s) options'
      = Normal (before ++ (LF ++ instruction f) ++ after) /\
    lineFeeds (LF ++ instruction f) = 1 /\
    lineFeeds (rendered (builder host p (Str s) options'))
      = 1 + lineFeeds (rendered (builder host p (Str s) options)).
Proof.
  intros Hp Hoptions Hoptions' Hunset Hset Hothers.
  assert (Hline : lineFeeds (LF ++ instruction f) = 1)
    by (destruct f; reflexivity).
  destruct Hp as [-> | ->]; unfold builder.
  - rewrite !openai_rendered by assumption.
    destruct (flag_inserts_line openaiOpening s openaiInstructions
                openaiClosing options options' f Hunset Hset Hothers)
      as (before & after & -> & ->).
    exists before, after. repeat split; try assumption.
    cbn [rendered]. set (line := LF ++ instruction f) in *.
    rewrite !lineFeeds_append, Hline. lia.
  - rewrite !claude_rendered by assumption.
    destruct (flag_inserts_line claudeOpening s claudeInstructions
                claudeClosing options options' f Hunset Hset Hothers)
      as (before & after & -> & ->).
    exists before, after. repeat split; try assumption.
    cbn [rendered]. set (line := LF ++ instruction f) in *.
    rewrite !lineFeeds_append, Hline. lia.
Qed.

Lemma flag_adds_one_line_witness :
  ((claude = openai \/ claude = claude) /\
   nullish (Obj []) = false /\
   nullish (Obj [("includeGoals", Bool true)]) = false /\
   flagSet (Obj []) includeGoals = false /\
   flagSet (Obj [("includeGoals", Bool true)]) includeGoals = true /\
   (forall g, g <> includeGoals ->
              flagSet (Obj [("includeGoals", Bool true)]) g
              = flagSet (Obj []) g)) /\
  exists before after,
    builder bareHost claude (Str "x") (Obj []) = Normal (before ++ after) /\
    builder bareHost claude (Str "x") (Obj [("includeGoals", Bool true)])
      = Normal (before ++ (LF ++ instruction includeGoals) ++ after) /\
    lineFeeds (LF ++ instruction includeGoals) = 1 /\
    lineFeeds (rendered (builder bareHost claude (Str "x")
                           (Obj [("includeGoals", Bool true)])))
      = 1 + lineFeeds (rendered (builder bareHost claude (Str "x") (Obj []))).
Proof.
  assert (Hothers : forall g, g <> includeGoals ->
                      flagSet (Obj [("includeGoals", Bool true)]) g
                      = flagSet (Obj []) g)
    by (intros g Hg; destruct g; [reflexivity | reflexivity
                                  | now destruct Hg | reflexivity]).
  split.
  - repeat split; [now right | exact Hothers].
  - apply (flag_adds_one_line bareHost claude "x" (Obj [])
             (Obj [("includeGoals", Bool true)]) includeGoals);
      [now right | reflexivity | reflexivity | reflexivity | reflexivity
      | exact Hothers].
Defined.

(** C7, as stated, fails for the Gemini builder: in its prompt for the
    text "x" no opening brace follows the demand "Return ONLY"; the
    example comes first and the demand closes the prompt. *)
Lemma gemini_example_precedes_directive :
  ~ directiveThenExample
      (rendered (formatJournalPromptForGemini bareHost (Str "x") (Obj []))).
Proof.
  intros (before & between & after & H).
  pose proof (occursAfter_complete before "Return ONLY" between "{" after)
    as Hfound.
  rewrite <- H in Hfound. vm_compute in Hfound. discriminate.
Qed.

(** C7, amended.  The OpenAI and Claude prompts end with the directive
    "Return ONLY a valid JSON object with the following structure:"
    followed by a literal, brace-delimited example of the expected shape.
    The Gemini prompt ends with "Format your response as JSON with the
    following structure:", the literal brace-delimited example, and then
    the closing directive "Return ONLY valid JSON." *)
Theorem prompts_close_with_json_directive :
  exists geminiShape resultShape,
    braced geminiShape /\ braced resultShape /\
    forall (host : Host) (s : string) (props : list (string * Value)),
      (exists before,
          formatJournalPromptForGemini host (Str s) (Obj props) =
            Normal (before
                    ++ "Format your response as JSON with the following structure:"
                    ++ LF ++ geminiShape ++ LF
                    ++ "Return ONLY valid JSON." ++ LF)) /\
      (exists before,
          formatJournalPromptForOpenAI host (Str s) (Obj props) =
            Normal (before ++ LF ++ LF
                    ++ "Return ONLY a valid JSON object with the following structure:"
                    ++ LF ++ resultShape)) /\
      (exists before,
          formatJournalPromptForClaude host (Str s) (Obj props) =
            Normal (before ++ LF ++ LF
                    ++ "Return ONLY a valid JSON object with the following structure:"
                    ++ LF ++ resultShape)).
Proof.
  exists (substring 2801 2425 geminiInstructions),
    (substring 64 281 openaiClosing).
  split; [exists (substring 2802 2423 geminiInstructions); reflexivity|].
  split; [exists (substring 65 279 openaiClosing); reflexivity|].
  intros host s props.
  assert (Hgemini :
            geminiInstructions =
              substring 0 2742 geminiInstructions
              ++ "Format your response as JSON with the following structure:"
              ++ LF ++ substring 2801 2425 geminiInstructions ++ LF
              ++ "Return ONLY valid JSON." ++ LF) by reflexivity.
  assert (Hopenai :
            openaiClosing =
              LF ++ LF
              ++ "Return ONLY a valid JSON object with the following structure:"
              ++ LF ++ substring 64 281 openaiClosing) by reflexivity.
  assert (Hclaude :
            claudeClosing =
              LF ++ LF
              ++ "Return ONLY a valid JSON object with the following structure:"
              ++ LF ++ substring 64 281 openaiClosing) by reflexivity.
  repeat split.
  - exists (geminiOpening ++ s ++ substring 0 2742 geminiInstructions).
    rewrite gemini_rendered, !append_assoc. now rewrite <- Hgemini.
  - exists (openaiOpening ++ s ++ openaiInstructions
            ++ flagLine (Obj props) includeWordCloud
            ++ flagLine (Obj props) includeMoodDistribution
            ++ flagLine (Obj props) includeGoals
            ++ flagLine (Obj props) includeSocialInteractions).
    rewrite openai_rendered, !append_assoc by reflexivity.
    now rewrite <- Hopenai.
  - exists (claudeOpening ++ s ++ claudeInstructions
            ++ flagLine (Obj props) includeWordCloud
            ++ flagLine (Obj props) includeMoodDistribution
            ++ flagLine (Obj props) includeGoals
            ++ flagLine (Obj props) includeSocialInteractions).
    rewrite claude_rendered, !append_assoc by reflexivity.
    now rewrite <- Hclaude.
Qed.

(** *** The outbound call *)

Lemma switch_inversion (provider : Value) (p : LLMProvider) :
  (if strictEqualsString provider "gemini" then Some gemini
   else if strictEqualsString provider "openai" then Some openai
   else if strictEqualsString provider "claude" then Some claude
   else None) = Some p ->
  provider = Str (providerId p).
Proof.
  destruct (strictEqualsString provider "gemini") eqn:Hg.
  { intros H; inversion H; subst.
    now apply (strictEqualsString_providerId provider gemini). }
  destruct (strictEqualsString provider "openai") eqn:Ho.
  { intros H; inversion H; subst.
    now apply (strictEqualsString_providerId provider openai). }
  destruct (strictEqualsString provider "claude") eqn:Hc.
  { intros H; inversion H; subst.
    now apply (strictEqualsString_providerId provider claude). }
  discriminate.
Qed.

Lemma calls_defaultLookup (body : Value) (t : list Event) :
  calls (defaultLookup body ++ t) = calls t.
Proof.
  unfold calls, defaultLookup.
  destruct (field body "provider"); reflexivity.
Qed.

(** Every outbound call of a request is the call of the adapter the
    request resolves to, made with that provider's credential, the prompt
    its builder rendered and the request's options. *)
Lemma POST_calls (host : Host) (body : Value) (ev : Event) :
  In ev (calls (fst (POST host (requestOf body)))) ->
  exists p key content,
    resolvedProvider host body = Str (providerId p) /\
    env host (credentialVariable p) = Some key /\
    builder host p (field body "prompt") (resolvedOptions body)
      = Normal content /\
    ev = outboundCall p key content (resolvedOptions body).
Proof.
  destruct (nullish body) eqn:Hbody.
  { destruct body; try discriminate; simpl; contradiction. }
  rewrite (POST_decoded host body Hbody). cbv zeta.
  destruct (truthy (field body "prompt")); cbn [negb].
  2:{ cbn [fst]. rewrite <- (app_nil_r (defaultLookup body)).
      rewrite calls_defaultLookup. simpl. contradiction. }
  match goal with
  | |- context [match ?x with Some _ => _ | None => _ end] =>
      destruct x as [p|] eqn:Hswitch
  end.
  2:{ cbn [fst]. rewrite <- (app_nil_r (defaultLookup body)).
      rewrite calls_defaultLookup. simpl. contradiction. }
  apply switch_inversion in Hswitch.
  destruct (adapter_runs host p (field body "prompt") (resolvedOptions body))
    as (t & r & Hrun & _ & [Ht | (key & content & Hkey & _ & Hfmt & _ & Ht)]);
    rewrite Hrun; cbn [fst]; rewrite calls_defaultLookup; subst t.
  - simpl. contradiction.
  - assert (Hcalls :
              calls [EnvRead (credentialVariable p);
                     outboundCall p key content (resolvedOptions body)]
              = [outboundCall p key content (resolvedOptions body)])
      by (destruct p; reflexivity).
    rewrite Hcalls. intros [<- | []]. now exists p, key, content.
Qed.

(** C8, as stated, fails: a request without [options.temperature] still
    has a temperature in its outbound call, the one the gateway chose. *)
Lemma temperature_default_is_sent :
  ~ (field (resolvedOptions (sampleBody "x" "openai")) "temperature"
       = Undefined ->
     forall ev,
       In ev (calls (fst (POST stubHost
                            (requestOf (sampleBody "x" "openai"))))) ->
       field (settings ev) "temperature" = Undefined).
Proof.
  intros H.
  specialize (H eq_refl (firstCall stubHost (sampleBody "x" "openai"))).
  vm_compute in H. specialize (H (or_introl eq_refl)). discriminate.
Qed.

(** What [serialised] does to an object's properties and to numbers. *)
Lemma serialised_field (props : list (string * Value)) (k : string) :
  lookup k props <> Undefined ->
  field (serialised (Obj props)) k = serialised (lookup k props).
Proof.
  induction props as [|[k' v] props IH]; cbn; intros H;
    [now destruct H|].
  destruct (k' =? k) eqn:Hk.
  - destruct v; cbn; rewrite ?Hk; try reflexivity. now destruct H.
  - destruct v; cbn; rewrite ?Hk; apply IH; exact H.
Qed.

Lemma serialised_field_absent (props : list (string * Value)) (k : string) :
  hasOwn k props = false -> field (serialised (Obj props)) k = Undefined.
Proof.
  induction props as [|[k' v] props IH]; cbn; intros H; [reflexivity|].
  apply orb_false_iff in H. destruct H as [Hk H].
  destruct v; cbn; rewrite ?Hk; apply IH; exact H.
Qed.

Lemma serialised_number (x : float) :
  truthy (Num x) = true -> is_finite x = true -> serialised (Num x) = Num x.
Proof.
  intros Htruthy Hfinite. cbn [serialised truthy] in *. rewrite Hfinite.
  destruct (is_zero x); [discriminate | reflexivity].
Qed.


Lemma or_fallback (v fallback : Value) :
  fallback <> Undefined -> or v fallback <> Undefined.
Proof.
  intros H. unfold or. destruct (truthy v) eqn:Hv; [|exact H].
  intros ->. discriminate.
Qed.

(** The settings of a call made through [fetch]: it is the call of the
    OpenAI or of the Claude adapter, and its serialised body holds the
    rendered prompt, the token budget 4096, the temperature and, for
    OpenAI alone, top-p. *)
Lemma fetch_call_settings (host : Host) (decoded : Value) (ev : Event) :
  In ev (calls (fst (POST host (requestOf decoded)))) ->
  viaFetch ev = true ->
  exists p content,
    (p = openai \/ p = claude) /\
    resolvedProvider host decoded = Str (providerId p) /\
    builder host p (field decoded "prompt") (resolvedOptions decoded)
      = Normal content /\
    promptSent ev = Str content /\
    field (settings ev) "max_tokens" = Num 4096 /\
    field (settings ev) "temperature"
      = serialised (or (field (resolvedOptions decoded) "temperature")
                      (Num 0.7)) /\
    field (settings ev) "top_p"
      = match p with
        | openai => serialised (or (field (resolvedOptions decoded) "topP")
                                  (Num 0.95))
        | _ => Undefined
        end /\
    field (settings ev) "topP" = Undefined /\
    field (settings ev) "top_k" = Undefined /\
    field (settings ev) "topK" = Undefined.
Proof.
  intros Hin Hfetch.
  destruct (POST_calls host decoded ev Hin)
    as (p & key & content & Hprovider & _ & Hfmt & ->).
  destruct p; [discriminate Hfetch | exists openai | exists claude];
    exists content; (split; [solve [now left | now right]|]);
    (split; [exact Hprovider|]); (split; [exact Hfmt|]);
    cbn [outboundCall settings promptSent body];
    repeat split.
  all: try (rewrite serialised_field_absent by reflexivity; reflexivity).
  all: try (rewrite serialised_field by discriminate; reflexivity).
  all: rewrite serialised_field
    by (cbn [lookup String.eqb Ascii.eqb Bool.eqb]; apply or_fallback;
        discriminate);
    reflexivity.
Qed.

(** C8, amended.  In every outbound call made through [fetch] (the OpenAI
    and Claude adapters), the temperature is the gateway's default 0.7 when
    [options.temperature] is absent, and the request's own value when that
    value is a finite number other than 0. *)
Theorem temperature_sent (host : Host) (body : Value) (ev : Event) :
  In ev (calls (fst (POST host (requestOf body)))) ->
  viaFetch ev = true ->
  (field (resolvedOptions body) "temperature" = Undefined ->
   field (settings ev) "temperature" = Num 0.7) /\
  (forall x,
      field (resolvedOptions body) "temperature" = Num x ->
      truthy (Num x) = true ->
      is_finite x = true ->
      field (settings ev) "temperature" = Num x).
Proof.
  intros Hin Hfetch.
  destruct (fetch_call_settings host body ev Hin Hfetch)
    as (p & content & _ & _ & _ & _ & _ & -> & _).
  split.
  - intros ->. reflexivity.
  - intros x -> Htruthy Hfinite. unfold or. rewrite Htruthy.
    now apply serialised_number.
Qed.

Lemma temperature_sent_witness :
  (In (firstCall stubHost bodyWithTemperature)
      (calls (fst (POST stubHost (requestOf bodyWithTemperature)))) /\
   viaFetch (firstCall stubHost bodyWithTemperature) = true) /\
  (field (resolvedOptions bodyWithTemperature) "temperature" = Undefined ->
   field (settings (firstCall stubHost bodyWithTemperature)) "temperature"
   = Num 0.7) /\
  (forall x,
      field (resolvedOptions bodyWithTemperature) "temperature" = Num x ->
      truthy (Num x) = true ->
      is_finite x = true ->
      field (settings (firstCall stubHost bodyWithTemperature)) "temperature"
      = Num x).
Proof.
  assert (Hin : In (firstCall stubHost bodyWithTemperature)
                   (calls (fst (POST stubHost
                                  (requestOf bodyWithTemperature)))))
    by (vm_compute; left; reflexivity).
  split; [split; [exact Hin | reflexivity]|].
  exact (temperature_sent stubHost bodyWithTemperature _ Hin eq_refl).
Defined.

(** The request of the witness sends its own temperature. *)
Example temperature_of_request_sent :
  field (settings (firstCall stubHost bodyWithTemperature)) "temperature"
  = Num 0.2.
Proof. reflexivity. Qed.

(** A temperature of 0 is falsy, so [options.temperature || 0.7] sends 0.7
    in its place. *)
Example temperature_zero_replaced :
  map (fun ev => field (settings ev) "temperature")
    (calls (fst (POST stubHost
                   (requestOf
                      (Obj [("prompt", Str "x");
                            ("provider", Str "openai");
                            ("options", Obj [("temperature", Num 0)])])))))
  = [Num 0.7].
Proof. reflexivity. Qed.

(** A temperature that is not finite is truthy, and is written [null]. *)
Example temperature_infinite_written_null :
  map (fun ev => field (settings ev) "temperature")
    (calls (fst (POST stubHost
                   (requestOf
                      (Obj [("prompt", Str "x");
                            ("provider", Str "openai");
                            ("options",
                             Obj [("temperature", Num infinity)])])))))
  = [Null].
Proof. reflexivity. Qed.

(** The Gemini adapter hands its settings to the client under
    [generationConfig]; the parameter object has no [config], so the call
    carries no settings of the gateway. *)
Remark gemini_call_has_no_config (host : Host) (body : Value) (ev : Event) :
  In ev (calls (fst (POST host (requestOf body)))) ->
  viaFetch ev = false ->
  settings ev = Undefined.
Proof.
  intros Hin Hfetch.
  destruct (POST_calls host body ev Hin)
    as (p & key & content & _ & _ & _ & ->).
  destruct p; [reflexivity | discriminate | discriminate].
Qed.




(** *** Further properties of the dispatcher *)

Lemma adapter_reads_credential (host : Host) (p : LLMProvider)
  (prompt options : Value) :
  In (EnvRead (credentialVariable p)) (fst (adapter host p prompt options)).
Proof.
  destruct (adapter_runs host p prompt options)
    as (t & r & Hrun & _ & [Ht | (key & content & _ & _ & _ & _ & Ht)]);
    rewrite Hrun; subst t; now left.
Qed.

(** X1.  [POST] answers every request and lets no exception out.  The
    status is 500 only before anything was done, 400 only when no adapter
    step was taken, and 200 once an adapter has looked its credential up:
    a failure inside an adapter never becomes a 500. *)
Theorem POST_status (host : Host) (request : NextRequest) :
  exists t response,
    POST host request = (t, Normal response) /\
    ((status response = 500 /\ t = []) \/
     (status response = 400 /\ existsb adapterStep t = false) \/
     (status response = 200 /\
      exists p, In (EnvRead (credentialVariable p)) t)).
Proof.
  destruct request as [[body|e]].
  2:{ eexists; eexists; split; [reflexivity|]. left. now split. }
  change (mkNextRequest (Normal body)) with (requestOf body).
  destruct (nullish body) eqn:Hbody.
  { rewrite (POST_null_body host body Hbody).
    eexists; eexists; split; [reflexivity|]. left. now split. }
  rewrite (POST_decoded host body Hbody). cbv zeta.
  destruct (truthy (field body "prompt")); cbn [negb].
  2:{ eexists; eexists; split; [reflexivity|]. right; left.
      split; [reflexivity | apply defaultLookup_quiet]. }
  match goal with
  | |- context [match ?x with Some _ => _ | None => _ end] =>
      destruct x as [p|]
  end.
  2:{ eexists; eexists; split; [reflexivity|]. right; left.
      split; [reflexivity | apply defaultLookup_quiet]. }
  pose proof (adapter_reads_credential host p (field body "prompt")
                (resolvedOptions body)) as Hread.
  destruct (adapter_runs host p (field body "prompt") (resolvedOptions body))
    as (t & r & Hrun & _ & _).
  rewrite Hrun in Hread |- *. cbn [fst] in Hread.
  eexists; eexists; split; [reflexivity|]. right; right.
  split; [reflexivity|]. exists p. apply in_or_app. now right.
Qed.

(** X2.  On a decoded body, the answer is 400 "Prompt is required" exactly
    when the prompt is falsy: absent, [null], [false], 0, NaN or "" alike,
    and whatever the provider field holds. *)
Theorem prompt_rejected_iff_falsy (host : Host) (body : Value) :
  nullish body = false ->
  snd (POST host (requestOf body)) =
    Normal (mkNextResponse 400 (Obj [("error", Str "Prompt is required")]))
  <-> truthy (field body "prompt") = false.
Proof.
  intros Hbody. rewrite (POST_decoded host body Hbody). cbv zeta.
  destruct (truthy (field body "prompt")); cbn [negb].
  2: now split.
  split; [|discriminate].
  match goal with
  | |- context [match ?x with Some _ => _ | None => _ end] =>
      destruct x as [p|]
  end.
  - destruct (adapter_runs host p (field body "prompt")
                (resolvedOptions body)) as (t & r & Hrun & _ & _).
    rewrite Hrun. cbn [snd]. discriminate.
  - cbn [snd]. discriminate.
Qed.

Lemma prompt_rejected_iff_falsy_witness :
  nullish (Obj [("prompt", Num 0); ("provider", Str "nobody")]) = false /\
  (snd (POST stubHost
          (requestOf (Obj [("prompt", Num 0); ("provider", Str "nobody")]))) =
     Normal (mkNextResponse 400 (Obj [("error", Str "Prompt is required")]))
   <-> truthy (field (Obj [("prompt", Num 0); ("provider", Str "nobody")])
                 "prompt") = false).
Proof.
  split; [reflexivity|].
  apply (prompt_rejected_iff_falsy stubHost
           (Obj [("prompt", Num 0); ("provider", Str "nobody")])).
  reflexivity.
Defined.

(** X3.  A request that carries a provider of its own never has the
    default consulted: DEFAULT_LLM_PROVIDER is not read. *)
Theorem default_not_consulted (host : Host) (body : Value) :
  field body "provider" <> Undefined ->
  ~ In (EnvRead "DEFAULT_LLM_PROVIDER") (fst (POST host (requestOf body))).
Proof.
  intros Hprovider Hin.
  assert (Hbody : nullish body = false)
    by (destruct body; try reflexivity; now destruct Hprovider).
  assert (Hquiet : defaultLookup body = [])
    by (unfold defaultLookup; destruct (field body "provider");
        try reflexivity; now destruct Hprovider).
  rewrite (POST_decoded host body Hbody) in Hin. cbv zeta in Hin.
  rewrite Hquiet in Hin.
  destruct (truthy (field body "prompt")); cbn [negb] in Hin;
    [|now destruct Hin].
  match type of Hin with
  | context [match ?x with Some _ => _ | None => _ end] =>
      destruct x as [p|]
  end; [|now destruct Hin].
  destruct (adapter_trace_own host p (field body "prompt")
              (resolvedOptions body)) as [Hown _].
  destruct (adapter host p (field body "prompt") (resolvedOptions body))
    as [t [r|e]]; cbn [fst app] in Hin, Hown;
    specialize (Hown _ Hin); destruct p; discriminate.
Qed.

Lemma default_not_consulted_witness :
  field (sampleBody "x" "openai") "provider" <> Undefined /\
  ~ In (EnvRead "DEFAULT_LLM_PROVIDER")
      (fst (POST stubHost (requestOf (sampleBody "x" "openai")))).
Proof.
  split; [discriminate|].
  apply (default_not_consulted stubHost (sampleBody "x" "openai")).
  discriminate.
Defined.

(** The rest of [POST] after destructuring depends on the body only
    through the prompt, the resolved provider and the resolved options. *)
Lemma POST_congruence (host : Host) (body body' : Value) :
  nullish body = false ->
  nullish body' = false ->
  field body' "prompt" = field body "prompt" ->
  resolvedProvider host body' = resolvedProvider host body ->
  resolvedOptions body' = resolvedOptions body ->
  exists t c,
    POST host (requestOf body) = ((defaultLookup body ++ t)%list, c) /\
    POST host (requestOf body') = ((defaultLookup body' ++ t)%list, c).
Proof.
  intros Hbody Hbody' Hprompt Hprovider Hoptions.
  rewrite (POST_decoded host body Hbody), (POST_decoded host body' Hbody').
  cbv zeta. rewrite Hprompt, Hprovider, Hoptions.
  destruct (truthy (field body "prompt")); cbn [negb].
  2:{ eexists []; eexists. rewrite !app_nil_r. split; reflexivity. }
  match goal with
  | |- context [match ?x with Some _ => _ | None => _ end] =>
      destruct x as [p|]
  end.
  2:{ eexists []; eexists. rewrite !app_nil_r. split; reflexivity. }
  destruct (adapter host p (field body "prompt") (resolvedOptions body))
    as [t [r|e]]; exists t; eexists; split; reflexivity.
Qed.

(** X4.  Omitting the provider is the same as naming the default: with
    DEFAULT_LLM_PROVIDER set to [d], a request without a provider field is
    answered as the same request with [provider: d], after the one extra
    read of the default. *)
Theorem default_provider_applies (host : Host)
  (props : list (string * Value)) (d : string) :
  lookup "provider" props = Undefined ->
  env host "DEFAULT_LLM_PROVIDER" = Some d ->
  POST host (requestOf (Obj props)) =
    (EnvRead "DEFAULT_LLM_PROVIDER"
       :: fst (POST host (requestOf (Obj (("provider", Str d) :: props)))),
     snd (POST host (requestOf (Obj (("provider", Str d) :: props))))).
Proof.
  intros Habsent Hdefault.
  destruct (POST_congruence host (Obj props)
              (Obj (("provider", Str d) :: props)))
    as (t & c & -> & ->); try reflexivity.
  - unfold resolvedProvider. cbn [field lookup String.eqb Ascii.eqb Bool.eqb].
    now rewrite Habsent, Hdefault.
  - unfold defaultLookup. cbn [field lookup]. rewrite Habsent.
    reflexivity.
Qed.

Lemma default_provider_applies_witness :
  (lookup "provider" [("prompt", Str "x")] = Undefined /\
   env defaultingHost "DEFAULT_LLM_PROVIDER" = Some "gemini") /\
  POST defaultingHost (requestOf (Obj [("prompt", Str "x")])) =
    (EnvRead "DEFAULT_LLM_PROVIDER"
       :: fst (POST defaultingHost
                 (requestOf (Obj (("provider", Str "gemini")
                                  :: [("prompt", Str "x")])))),
     snd (POST defaultingHost
            (requestOf (Obj (("provider", Str "gemini")
                             :: [("prompt", Str "x")]))))).
Proof.
  split; [split; reflexivity|].
  apply (default_provider_applies defaultingHost [("prompt", Str "x")]
           "gemini"); reflexivity.
Defined.

(** X5.  Omitting the options is the same as sending [options: {}]. *)
Theorem options_default_to_empty (host : Host)
  (props : list (string * Value)) :
  lookup "options" props = Undefined ->
  POST host (requestOf (Obj props)) =
    POST host (requestOf (Obj (("options", Obj []) :: props))).
Proof.
  intros Habsent.
  destruct (POST_congruence host (Obj props)
              (Obj (("options", Obj []) :: props)))
    as (t & c & -> & ->); try reflexivity.
  unfold resolvedOptions. cbn [field lookup String.eqb Ascii.eqb Bool.eqb].
  now rewrite Habsent.
Qed.

Lemma options_default_to_empty_witness :
  lookup "options" [("prompt", Str "x"); ("provider", Str "claude")]
    = Undefined /\
  POST stubHost (requestOf (sampleBody "x" "claude")) =
    POST stubHost
      (requestOf (Obj (("options", Obj []) ::
                       [("prompt", Str "x"); ("provider", Str "claude")]))).
Proof.
  split; [reflexivity|].
  exact (options_default_to_empty stubHost
           [("prompt", Str "x"); ("provider", Str "claude")] eq_refl).
Defined.

(** *** Further properties of the adapters *)

Lemma GetOptional_field (e : Engine) (v : Value) (p : string) :
  (p =? "0") = false -> GetOptional e v p = Normal (field v p).
Proof.
  intros Hp. unfold GetOptional.
  destruct (nullish v) eqn:Hv.
  - destruct v; try discriminate; reflexivity.
  - now apply Get_field.
Qed.

(** Brings an adapter that is [ready] to its outbound call. *)
Ltac enter_adapter Hready :=
  let Hkey := fresh "Hkey" in
  let Htruthy := fresh "Htruthy" in
  let Hfmt := fresh "Hfmt" in
  let Hoptions := fresh "Hoptions" in
  destruct Hready as (Hkey & Htruthy & Hfmt & Hoptions);
  cbn [credentialVariable builder] in Hkey, Hfmt;
  unfold adapter, getGeminiResponse, getOpenAIResponse, getClaudeResponse,
    get, toString, readEnv, callFetch, callGenerateContent, failed;
  rewrite Hkey; run; rewrite Htruthy; run; cbn [ToString];
  rewrite Hfmt; run;
  rewrite !Get_field by (assumption || reflexivity); run;
  cbn [LLM_CONFIG modelName maxTokens].

(** A builder that reads the options throws on [null] options. *)
Lemma builder_nullish_options (host : Host) (p : LLMProvider)
  (prompt options : Value) :
  p = openai \/ p = claude ->
  nullish options = true ->
  exists e, builder host p prompt options = Throw e.
Proof.
  intros [-> | ->] Hoptions; unfold builder, formatJournalPromptForOpenAI,
    formatJournalPromptForClaude;
    destruct (ToString (engine host) prompt); cbn [bindC];
    rewrite ?Get_nullish by assumption; cbn [bindC]; eexists; reflexivity.
Qed.

(** With [null] options an adapter stops before its call and reports the
    engine's fault (or, first, a missing credential). *)
Lemma adapter_nullish_options (host : Host) (p : LLMProvider)
  (prompt options : Value) :
  nullish options = true ->
  exists msg,
    adapter host p prompt options =
      ([EnvRead (credentialVariable p)],
       Normal (mkLLMResponse (Str "") (modelName (LLM_CONFIG p)) (Some msg))).
Proof.
  intros Hoptions.
  destruct p; unfold adapter, getGeminiResponse, getOpenAIResponse,
    getClaudeResponse, get, toString, readEnv, callFetch,
    callGenerateContent, failed.
  - destruct (env host "GEMINI_API_KEY") as [key|]; run;
      [destruct (truthy (Str key)); run|].
    2,3: eexists; reflexivity.
    destruct (formatJournalPromptForGemini host prompt options); run.
    2: eexists; reflexivity.
    rewrite Get_nullish by assumption. run. eexists; reflexivity.
  - destruct (env host "OPENAI_API_KEY") as [key|]; run;
      [destruct (truthy (Str key)); run|].
    2,3: eexists; reflexivity.
    cbn [ToString]. run.
    destruct (builder_nullish_options host openai prompt options
                (or_introl eq_refl) Hoptions) as [e He].
    cbn [builder] in He. rewrite He. run. eexists; reflexivity.
  - destruct (env host "ANTHROPIC_API_KEY") as [key|]; run;
      [destruct (truthy (Str key)); run|].
    2,3: eexists; reflexivity.
    cbn [ToString]. run.
    destruct (builder_nullish_options host claude prompt options
                (or_intror eq_refl) Hoptions) as [e He].
    cbn [builder] in He. rewrite He. run. eexists; reflexivity.
Qed.

(** X6.  A request with [options: null] and a recognized provider is not
    fatal: it is answered with status 200 and a result whose [text] is ""
    and whose [error] is set, and no outbound call is made. *)
Theorem null_options_recovered (host : Host) (body : Value)
  (p : LLMProvider) :
  nullish body = false ->
  truthy (field body "prompt") = true ->
  resolvedProvider host body = Str (providerId p) ->
  field body "options" = Null ->
  exists msg,
    POST host (requestOf body) =
      ((defaultLookup body ++ [EnvRead (credentialVariable p)])%list,
       Normal (mkNextResponse 200
                 (Obj [("text", Str "");
                       ("model", Str (modelName (LLM_CONFIG p)));
                       ("error", Str msg)]))).
Proof.
  intros Hbody Hprompt Hprovider Hnull.
  assert (Hoptions : nullish (resolvedOptions body) = true)
    by (unfold resolvedOptions; now rewrite Hnull).
  destruct (adapter_nullish_options host p (field body "prompt")
              (resolvedOptions body) Hoptions) as [msg Hrun].
  exists msg. rewrite (POST_decoded host body Hbody). cbv zeta.
  rewrite Hprompt, (switch_recognized _ p Hprovider), Hrun. reflexivity.
Qed.

Lemma null_options_recovered_witness :
  (nullish (Obj [("prompt", Str "x"); ("provider", Str "gemini");
                 ("options", Null)]) = false /\
   truthy (field (Obj [("prompt", Str "x"); ("provider", Str "gemini");
                       ("options", Null)]) "prompt") = true /\
   resolvedProvider stubHost
     (Obj [("prompt", Str "x"); ("provider", Str "gemini");
           ("options", Null)]) = Str (providerId gemini) /\
   field (Obj [("prompt", Str "x"); ("provider", Str "gemini");
               ("options", Null)]) "options" = Null) /\
  exists msg,
    POST stubHost
      (requestOf (Obj [("prompt", Str "x"); ("provider", Str "gemini");
                       ("options", Null)])) =
      ([EnvRead "GEMINI_API_KEY"],
       Normal (mkNextResponse 200
                 (Obj [("text", Str "");
                       ("model", Str "gemini-2.0-flash");
                       ("error", Str msg)]))).
Proof.
  split; [repeat split|].
  apply (null_options_recovered stubHost
           (Obj [("prompt", Str "x"); ("provider", Str "gemini");
                 ("options", Null)]) gemini); reflexivity.
Defined.

(** X7.  A credential set to the empty string counts as missing: the
    answer is the same 200 result naming the variable, and no outbound call
    is made. *)
Theorem POST_empty_credential (host : Host) (body : Value)
  (p : LLMProvider) :
  nullish body = false ->
  truthy (field body "prompt") = true ->
  resolvedProvider host body = Str (providerId p) ->
  env host (credentialVariable p) = Some "" ->
  POST host (requestOf body) =
    ((defaultLookup body ++ [EnvRead (credentialVariable p)])%list,
     Normal (mkNextResponse 200
               (Obj [("text", Str "");
                     ("model", Str (modelName (LLM_CONFIG p)));
                     ("error",
                      Str (credentialVariable p
                           ++ " is not defined in environment variables"))]))).
Proof.
  intros Hbody Hprompt Hprovider Henv.
  rewrite (POST_decoded host body Hbody). cbv zeta.
  rewrite Hprompt, (switch_recognized _ p Hprovider).
  destruct p; simpl in Henv; unfold adapter, getGeminiResponse,
    getOpenAIResponse, getClaudeResponse, readEnv, failed;
    rewrite Henv; reflexivity.
Qed.

Lemma POST_empty_credential_witness :
  (nullish (sampleBody "x" "claude") = false /\
   truthy (field (sampleBody "x" "claude") "prompt") = true /\
   resolvedProvider blankKeysHost (sampleBody "x" "claude")
     = Str (providerId claude) /\
   env blankKeysHost (credentialVariable claude) = Some "") /\
  POST blankKeysHost (requestOf (sampleBody "x" "claude")) =
    ([EnvRead "ANTHROPIC_API_KEY"],
     Normal (mkNextResponse 200
               (Obj [("text", Str "");
                     ("model", Str "claude-3-haiku-20240307");
                     ("error",
                      Str "ANTHROPIC_API_KEY is not defined in environment variables")]))).
Proof.
  split; [repeat split|].
  apply (POST_empty_credential blankKeysHost (sampleBody "x" "claude") claude);
    reflexivity.
Defined.

(** X8.  When the outbound call itself is rejected (the network fails, the
    Gemini client throws), the adapter returns a result with [text] "" and
    the thrown message as [error], after exactly that one call. *)
Theorem call_rejected (host : Host) (p : LLMProvider)
  (prompt options : Value) (key content : string) (e : Error) :
  ready host p prompt options key content ->
  rejected host (outboundCall p key content options) e ->
  adapter host p prompt options =
    ([EnvRead (credentialVariable p); outboundCall p key content options],
     Normal (mkLLMResponse (Str "") (modelName (LLM_CONFIG p))
               (Some (message e)))).
Proof.
  intros Hready Hcall.
  destruct p; cbn [rejected outboundCall] in Hcall; enter_adapter Hready;
    rewrite Hcall; reflexivity.
Qed.

Lemma call_rejected_witness :
  (ready (serviceHost (Throw (mkError "quota exceeded"))
            (Throw (mkError "fetch failed")))
     openai (Str "x") (Obj []) "secret" (samplePrompt openai) /\
   rejected (serviceHost (Throw (mkError "quota exceeded"))
               (Throw (mkError "fetch failed")))
     (outboundCall openai "secret" (samplePrompt openai) (Obj []))
     (mkError "fetch failed")) /\
  adapter (serviceHost (Throw (mkError "quota exceeded"))
             (Throw (mkError "fetch failed")))
    openai (Str "x") (Obj []) =
    ([EnvRead "OPENAI_API_KEY";
      outboundCall openai "secret" (samplePrompt openai) (Obj [])],
     Normal (mkLLMResponse (Str "") "gpt-3.5-turbo" (Some "fetch failed"))).
Proof.
  assert (Hready :
            ready (serviceHost (Throw (mkError "quota exceeded"))
                     (Throw (mkError "fetch failed")))
              openai (Str "x") (Obj []) "secret" (samplePrompt openai))
    by (repeat split).
  split; [split; [exact Hready | reflexivity]|].
  apply (call_rejected _ openai (Str "x") (Obj []) "secret"
           (samplePrompt openai) (mkError "fetch failed") Hready).
  reflexivity.
Defined.

(** X9.  When an HTTP provider answers with a failure status and a decoded
    body, the adapter's [error] is the message the provider reported under
    [error.message], if that is a non-empty string, and the adapter's own
    fallback literal when no message (or a falsy one) is reported; [text]
    is "" either way. *)
Theorem upstream_error_reported (host : Host) (p : LLMProvider)
  (prompt options : Value) (key content : string) (failure : Value) :
  p = openai \/ p = claude ->
  ready host p prompt options key content ->
  answered host (outboundCall p key content options)
    (mkResponse false (Normal failure)) ->
  nullish failure = false ->
  exists r,
    adapter host p prompt options =
      ([EnvRead (credentialVariable p); outboundCall p key content options],
       Normal r) /\
    text r = Str "" /\
    (forall m, field (field failure "error") "message" = Str m ->
               m <> "" -> error r = Some m) /\
    (truthy (field (field failure "error") "message") = false ->
     error r = Some (fallbackMessage p)).
Proof.
  intros Hp Hready Hcall Hfailure.
  destruct Hp as [-> | ->]; cbn [answered outboundCall] in Hcall;
    enter_adapter Hready; rewrite Hcall; cbn [ok json negb]; run;
    rewrite (Get_field _ failure) by (assumption || reflexivity); run;
    rewrite GetOptional_field by reflexivity; run; unfold or;
    destruct (truthy (field (field failure "error") "message")) eqn:Hm.
  all: cbn [ToString fallbackMessage]; run.
  all: try (destruct (ToString (engine host)
                        (field (field failure "error") "message"))
              as [shown|e] eqn:Hshown; run).
  all: eexists; (split; [reflexivity|]); cbn [text error];
    (split; [reflexivity|]); split;
    [ intros m Hstr Hne; rewrite Hstr in *; cbn in *
    | intros Hfalsy ];
    solve [ reflexivity | congruence | discriminate
          | exfalso; destruct m; [now apply Hne | discriminate] ].
Qed.

Lemma upstream_error_reported_witness :
  ((claude = openai \/ claude = claude) /\
   ready refusingHost claude (Str "x") (Obj []) "secret"
     (samplePrompt claude) /\
   answered refusingHost
     (outboundCall claude "secret" (samplePrompt claude) (Obj []))
     (mkResponse false
        (Normal (Obj [("error", Obj [("message", Str "Rate limit")])]))) /\
   nullish (Obj [("error", Obj [("message", Str "Rate limit")])]) = false) /\
  exists r,
    adapter refusingHost claude (Str "x") (Obj []) =
      ([EnvRead (credentialVariable claude);
        outboundCall claude "secret" (samplePrompt claude) (Obj [])],
       Normal r) /\
    text r = Str "" /\
    (forall m,
        field (field (Obj [("error", Obj [("message", Str "Rate limit")])])
                 "error") "message" = Str m ->
        m <> "" -> error r = Some m) /\
    (truthy (field (field (Obj [("error",
                                 Obj [("message", Str "Rate limit")])])
                      "error") "message") = false ->
     error r = Some (fallbackMessage claude)).
Proof.
  assert (Hready : ready refusingHost claude (Str "x") (Obj []) "secret"
                     (samplePrompt claude)) by (repeat split).
  split; [repeat split; solve [now right | apply Hready]|].
  apply (upstream_error_reported refusingHost claude (Str "x") (Obj [])
           "secret" (samplePrompt claude)
           (Obj [("error", Obj [("message", Str "Rate limit")])]));
    [now right | exact Hready | reflexivity | reflexivity].
Defined.

(** The refusal of the sample host reaches the caller as the result's
    [error]. *)
Example refusal_reaches_caller :
  snd (POST refusingHost (requestOf (sampleBody "x" "openai"))) =
    Normal (mkNextResponse 200
              (Obj [("text", Str ""); ("model", Str "gpt-3.5-turbo");
                    ("error", Str "Rate limit")])).
Proof. reflexivity. Qed.

(** X10.  When an HTTP provider's response body does not decode, whatever
    its status, the adapter's [error] is the decoder's message and [text]
    is "". *)
Theorem upstream_body_undecodable (host : Host) (p : LLMProvider)
  (prompt options : Value) (key content : string) (success : bool)
  (e : Error) :
  p = openai \/ p = claude ->
  ready host p prompt options key content ->
  answered host (outboundCall p key content options)
    (mkResponse success (Throw e)) ->
  adapter host p prompt options =
    ([EnvRead (credentialVariable p); outboundCall p key content options],
     Normal (mkLLMResponse (Str "") (modelName (LLM_CONFIG p))
               (Some (message e)))).
Proof.
  intros Hp Hready Hcall.
  destruct Hp as [-> | ->]; cbn [answered outboundCall] in Hcall;
    enter_adapter Hready; rewrite Hcall; cbn [ok json];
    destruct success; reflexivity.
Qed.

Lemma upstream_body_undecodable_witness :
  ((openai = openai \/ openai = claude) /\
   ready (serviceHost (Throw (mkError "quota exceeded"))
            (Normal (mkResponse true
                       (Throw (mkError "Unexpected end of JSON input")))))
     openai (Str "x") (Obj []) "secret" (samplePrompt openai) /\
   answered (serviceHost (Throw (mkError "quota exceeded"))
               (Normal (mkResponse true
                          (Throw (mkError "Unexpected end of JSON input")))))
     (outboundCall openai "secret" (samplePrompt openai) (Obj []))
     (mkResponse true (Throw (mkError "Unexpected end of JSON input")))) /\
  adapter (serviceHost (Throw (mkError "quota exceeded"))
             (Normal (mkResponse true
                        (Throw (mkError "Unexpected end of JSON input")))))
    openai (Str "x") (Obj []) =
    ([EnvRead "OPENAI_API_KEY";
      outboundCall openai "secret" (samplePrompt openai) (Obj [])],
     Normal (mkLLMResponse (Str "") "gpt-3.5-turbo"
               (Some "Unexpected end of JSON input"))).
Proof.
  assert (Hready :
            ready (serviceHost (Throw (mkError "quota exceeded"))
                     (Normal (mkResponse true
                                (Throw (mkError
                                          "Unexpected end of JSON input")))))
              openai (Str "x") (Obj []) "secret" (samplePrompt openai))
    by (repeat split).
  split; [repeat split; solve [now left | apply Hready]|].
  apply (upstream_body_undecodable _ openai (Str "x") (Obj []) "secret"
           (samplePrompt openai) true
           (mkError "Unexpected end of JSON input"));
    [now left | exact Hready | reflexivity].
Defined.

(** X11.  On a successful OpenAI response, the result's [text] is the
    content of the message of the first choice, whatever other choices and
    fields the body has, and no [error] is set. *)
Theorem openai_first_choice (host : Host) (prompt options : Value)
  (key content : string) (data : Value)
  (choice : list (string * Value)) (others : list Value)
  (reply : list (string * Value)) :
  ready host openai prompt options key content ->
  answered host (outboundCall openai key content options)
    (mkResponse true (Normal data)) ->
  field data "choices" = Arr (Obj choice :: others) ->
  lookup "message" choice = Obj reply ->
  getOpenAIResponse host prompt options =
    ([EnvRead "OPENAI_API_KEY"; outboundCall openai key content options],
     Normal (mkLLMResponse (lookup "content" reply) "gpt-3.5-turbo" None)).
Proof.
  intros Hready Hcall Hchoices Hmessage.
  assert (Hdata : nullish data = false)
    by (destruct data; try reflexivity; discriminate).
  cbn [answered outboundCall] in Hcall.
  change (getOpenAIResponse host) with (adapter host openai).
  enter_adapter Hready. rewrite Hcall. cbn [ok json negb]. run.
  rewrite (Get_field _ data) by (assumption || reflexivity). run.
  rewrite Hchoices. cbn [Get String.eqb Ascii.eqb Bool.eqb nth lookup].
  run. rewrite Hmessage. cbn [Get]. run. reflexivity.
Qed.

Lemma openai_first_choice_witness :
  (ready stubHost openai (Str "x") (Obj []) "secret" (samplePrompt openai) /\
   answered stubHost
     (outboundCall openai "secret" (samplePrompt openai) (Obj []))
     (mkResponse true
        (Normal (Obj [("choices",
                       Arr [Obj [("message",
                                  Obj [("content", Str "ok")])]])]))) /\
   field (Obj [("choices",
                Arr [Obj [("message", Obj [("content", Str "ok")])]])])
     "choices" = Arr (Obj [("message", Obj [("content", Str "ok")])] :: []) /\
   lookup "message" [("message", Obj [("content", Str "ok")])]
     = Obj [("content", Str "ok")]) /\
  getOpenAIResponse stubHost (Str "x") (Obj []) =
    ([EnvRead "OPENAI_API_KEY";
      outboundCall openai "secret" (samplePrompt openai) (Obj [])],
     Normal (mkLLMResponse (lookup "content" [("content", Str "ok")])
               "gpt-3.5-turbo" None)).
Proof.
  assert (Hready : ready stubHost openai (Str "x") (Obj []) "secret"
                     (samplePrompt openai)) by (repeat split).
  split; [repeat split; apply Hready|].
  apply (openai_first_choice stubHost (Str "x") (Obj []) "secret"
           (samplePrompt openai)
           (Obj [("choices",
                  Arr [Obj [("message", Obj [("content", Str "ok")])]])])
           [("message", Obj [("content", Str "ok")])] []
           [("content", Str "ok")] Hready); reflexivity.
Defined.

(** X12.  A successful OpenAI response with an empty list of choices is
    turned into a failure: reading the first choice's message faults, so
    the result carries the engine's message as [error] and [text] "". *)
Theorem openai_no_choice (host : Host) (prompt options : Value)
  (key content : string) (data : Value) :
  ready host openai prompt options key content ->
  answered host (outboundCall openai key content options)
    (mkResponse true (Normal data)) ->
  field data "choices" = Arr [] ->
  getOpenAIResponse host prompt options =
    ([EnvRead "OPENAI_API_KEY"; outboundCall openai key content options],
     Normal (mkLLMResponse (Str "") "gpt-3.5-turbo"
               (Some (faultMessage (engine host)
                        (ReadProperty Undefined "message"))))).
Proof.
  intros Hready Hcall Hchoices.
  assert (Hdata : nullish data = false)
    by (destruct data; try reflexivity; discriminate).
  cbn [answered outboundCall] in Hcall.
  change (getOpenAIResponse host) with (adapter host openai).
  enter_adapter Hready. rewrite Hcall. cbn [ok json negb]. run.
  rewrite (Get_field _ data) by (assumption || reflexivity). run.
  rewrite Hchoices. reflexivity.
Qed.

Lemma openai_no_choice_witness :
  (ready emptyHost openai (Str "x") (Obj []) "secret" (samplePrompt openai) /\
   answered emptyHost
     (outboundCall openai "secret" (samplePrompt openai) (Obj []))
     (mkResponse true
        (Normal (Obj [("choices", Arr []); ("content", Arr [])]))) /\
   field (Obj [("choices", Arr []); ("content", Arr [])]) "choices"
     = Arr []) /\
  getOpenAIResponse emptyHost (Str "x") (Obj []) =
    ([EnvRead "OPENAI_API_KEY";
      outboundCall openai "secret" (samplePrompt openai) (Obj [])],
     Normal (mkLLMResponse (Str "") "gpt-3.5-turbo" (Some "TypeError"))).
Proof.
  assert (Hready : ready emptyHost openai (Str "x") (Obj []) "secret"
                     (samplePrompt openai)) by (repeat split).
  split; [repeat split; apply Hready|].
  apply (openai_no_choice emptyHost (Str "x") (Obj []) "secret"
           (samplePrompt openai)
           (Obj [("choices", Arr []); ("content", Arr [])]) Hready);
    reflexivity.
Defined.

(** X13.  On a successful Claude response, the result's [text] is the
    [text] of the first content block, or "" when that text is falsy or
    missing; a body without content, or with an empty content list, gives
    [text] "" and still no [error]. *)
Theorem claude_first_block (host : Host) (prompt options : Value)
  (key content : string) (data : Value) (blocks : list Value) :
  ready host claude prompt options key content ->
  answered host (outboundCall claude key content options)
    (mkResponse true (Normal data)) ->
  nullish data = false ->
  field data "content" = Arr blocks \/
  (nullish (field data "content") = true /\ blocks = []) ->
  getClaudeResponse host prompt options =
    ([EnvRead "ANTHROPIC_API_KEY"; outboundCall claude key content options],
     Normal (mkLLMResponse
               (or (field (hd Undefined blocks) "text") (Str ""))
               "claude-3-haiku-20240307" None)).
Proof.
  intros Hready Hcall Hdata Hcontent.
  cbn [answered outboundCall] in Hcall.
  change (getClaudeResponse host) with (adapter host claude).
  enter_adapter Hready. rewrite Hcall. cbn [ok json negb]. run.
  rewrite (Get_field _ data) by (assumption || reflexivity). run.
  destruct Hcontent as [Hblocks | [Hnone ->]].
  - rewrite Hblocks. cbn [GetOptional nullish Get String.eqb Ascii.eqb
                            Bool.eqb]. run.
    replace (nth 0 blocks Undefined) with (hd Undefined blocks)
      by (now destruct blocks).
    rewrite GetOptional_field by reflexivity. run. reflexivity.
  - unfold GetOptional at 1. rewrite Hnone. run.
    cbn [GetOptional nullish hd field]. run. reflexivity.
Qed.

Lemma claude_first_block_witness :
  (ready emptyHost claude (Str "x") (Obj []) "secret" (samplePrompt claude) /\
   answered emptyHost
     (outboundCall claude "secret" (samplePrompt claude) (Obj []))
     (mkResponse true
        (Normal (Obj [("choices", Arr []); ("content", Arr [])]))) /\
   nullish (Obj [("choices", Arr []); ("content", Arr [])]) = false /\
   (field (Obj [("choices", Arr []); ("content", Arr [])]) "content" = Arr []
    \/ (nullish (field (Obj [("choices", Arr []); ("content", Arr [])])
                   "content") = true /\ @nil Value = []))) /\
  getClaudeResponse emptyHost (Str "x") (Obj []) =
    ([EnvRead "ANTHROPIC_API_KEY";
      outboundCall claude "secret" (samplePrompt claude) (Obj [])],
     Normal (mkLLMResponse (Str "") "claude-3-haiku-20240307" None)).
Proof.
  assert (Hready : ready emptyHost claude (Str "x") (Obj []) "secret"
                     (samplePrompt claude)) by (repeat split).
  split; [repeat split; solve [apply Hready | now left]|].
  apply (claude_first_block emptyHost (Str "x") (Obj []) "secret"
           (samplePrompt claude)
           (Obj [("choices", Arr []); ("content", Arr [])]) [] Hready);
    [reflexivity | reflexivity | now left].
Defined.

(** X14.  The [text] of a Claude result is never [undefined], [null] or
    another falsy value: on every path it is "" or a truthy value. *)
Theorem claude_text_normalised (host : Host) (prompt options : Value)
  (t : list Event) (r : LLMResponse) :
  getClaudeResponse host prompt options = (t, Normal r) ->
  text r = Str "" \/ truthy (text r) = true.
Proof.
  unfold getClaudeResponse, get, toString, readEnv, callFetch, failed.
  run.
  destruct (env host "ANTHROPIC_API_KEY") as [key|]; run.
  2:{ intros H; inversion H; now left. }
  destruct (truthy (Str key)); run.
  2:{ intros H; inversion H; now left. }
  cbn [ToString]. run.
  destruct (formatJournalPromptForClaude host prompt options); run.
  2:{ intros H; inversion H; now left. }
  run_all; intros H; inversion H; subst; cbn [text]; try now left.
  unfold or.
  match goal with
  | |- context [truthy ?v] => destruct (truthy v) eqn:Hv
  end; [now right | now left].
Qed.

Lemma claude_text_normalised_witness :
  getClaudeResponse emptyHost (Str "x") (Obj []) =
    ([EnvRead "ANTHROPIC_API_KEY";
      outboundCall claude "secret" (samplePrompt claude) (Obj [])],
     Normal (mkLLMResponse (Str "") "claude-3-haiku-20240307" None)) /\
  (text (mkLLMResponse (Str "") "claude-3-haiku-20240307" None) = Str "" \/
   truthy (text (mkLLMResponse (Str "") "claude-3-haiku-20240307" None))
   = true).
Proof.
  assert (Hrun :
            getClaudeResponse emptyHost (Str "x") (Obj []) =
              ([EnvRead "ANTHROPIC_API_KEY";
                outboundCall claude "secret" (samplePrompt claude) (Obj [])],
               Normal (mkLLMResponse (Str "") "claude-3-haiku-20240307"
                         None))) by reflexivity.
  split; [exact Hrun|].
  exact (claude_text_normalised emptyHost (Str "x") (Obj []) _ _ Hrun).
Defined.

(** The other two adapters do not normalise: an empty Gemini answer gives a
    result without [error] whose [text] is [undefined]. *)
Example gemini_text_may_be_undefined :
  snd (getGeminiResponse emptyHost (Str "x") (Obj [])) =
    Normal (mkLLMResponse Undefined "gemini-2.0-flash" None).
Proof. reflexivity. Qed.

(** X15.  On a successful Gemini call, the result's [text] is the text of
    the client's response, unchanged, and no [error] is set. *)
Theorem gemini_text_returned (host : Host) (prompt options : Value)
  (key content : string) (response : GenerateContentResponse) :
  ready host gemini prompt options key content ->
  replied host (outboundCall gemini key content options) response ->
  getGeminiResponse host prompt options =
    ([EnvRead "GEMINI_API_KEY"; outboundCall gemini key content options],
     Normal (mkLLMResponse (responseText response) "gemini-2.0-flash" None)).
Proof.
  intros Hready Hcall. cbn [replied outboundCall] in Hcall.
  change (getGeminiResponse host) with (adapter host gemini).
  enter_adapter Hready. rewrite Hcall. reflexivity.
Qed.

Lemma gemini_text_returned_witness :
  (ready stubHost gemini (Str "Today was good") (Obj []) "secret"
     (rendered (builder stubHost gemini (Str "Today was good") (Obj []))) /\
   replied stubHost
     (outboundCall gemini "secret"
        (rendered (builder stubHost gemini (Str "Today was good") (Obj [])))
        (Obj []))
     (mkGenerateContentResponse (Str "ok"))) /\
  getGeminiResponse stubHost (Str "Today was good") (Obj []) =
    ([EnvRead "GEMINI_API_KEY";
      outboundCall gemini "secret"
        (rendered (builder stubHost gemini (Str "Today was good") (Obj [])))
        (Obj [])],
     Normal (mkLLMResponse (Str "ok") "gemini-2.0-flash" None)).
Proof.
  assert (Hready :
            ready stubHost gemini (Str "Today was good") (Obj []) "secret"
              (rendered (builder stubHost gemini (Str "Today was good")
                           (Obj [])))) by (repeat split).
  split; [split; [exact Hready | reflexivity]|].
  apply (gemini_text_returned stubHost (Str "Today was good") (Obj [])
           "secret" _ (mkGenerateContentResponse (Str "ok")) Hready).
  reflexivity.
Defined.

(** *** Further properties of the outbound call *)

(** X16.  Every outbound call goes to the service of the provider the
    request resolves to and presents that provider's credential, as read
    from the environment: the OpenAI key travels in the Authorization
    header of a call to OpenAI, the Anthropic key in the x-api-key header
    of a call to Anthropic, the Gemini key to the Gemini client, and the
    headers hold no other credential. *)
Theorem credential_goes_to_its_provider (host : Host) (body : Value)
  (ev : Event) :
  In ev (calls (fst (POST host (requestOf body)))) ->
  exists p key,
    resolvedProvider host body = Str (providerId p) /\
    env host (credentialVariable p) = Some key /\
    stepOf p ev = true /\
    presents p key ev.
Proof.
  intros Hin.
  destruct (POST_calls host body ev Hin)
    as (p & key & content & Hprovider & Hkey & _ & ->).
  exists p, key. repeat split; try assumption.
  - destruct p; reflexivity.
  - destruct p; cbn [presents outboundCall]; eexists; reflexivity.
Qed.

Lemma credential_goes_to_its_provider_witness :
  In (firstCall stubHost (sampleBody "x" "claude"))
     (calls (fst (POST stubHost (requestOf (sampleBody "x" "claude"))))) /\
  exists p key,
    resolvedProvider stubHost (sampleBody "x" "claude")
      = Str (providerId p) /\
    env stubHost (credentialVariable p) = Some key /\
    stepOf p (firstCall stubHost (sampleBody "x" "claude")) = true /\
    presents p key (firstCall stubHost (sampleBody "x" "claude")).
Proof.
  assert (Hin : In (firstCall stubHost (sampleBody "x" "claude"))
                   (calls (fst (POST stubHost
                                  (requestOf (sampleBody "x" "claude"))))))
    by (vm_compute; left; reflexivity).
  split; [exact Hin|].
  exact (credential_goes_to_its_provider stubHost (sampleBody "x" "claude")
           _ Hin).
Defined.

(** X17.  Whenever a request makes an outbound call, the response is a 200
    whose [model] is the model the call named: the model reported is the
    model asked. *)
Theorem model_reported_is_model_called (host : Host) (body : Value)
  (ev : Event) :
  In ev (calls (fst (POST host (requestOf body)))) ->
  exists response,
    snd (POST host (requestOf body)) = Normal response /\
    status response = 200 /\
    field (payload response) "model" = modelSent ev /\
    modelSent ev <> Undefined.
Proof.
  intros Hin.
  destruct (POST_calls host body ev Hin)
    as (p & key & content & Hprovider & _ & _ & ->).
  assert (Hbody : nullish body = false).
  { destruct (nullish body) eqn:Hb; [|reflexivity].
    rewrite (POST_null_body host body Hb) in Hin. destruct Hin. }
  rewrite (POST_decoded host body Hbody) in Hin |- *. cbv zeta in Hin |- *.
  destruct (truthy (field body "prompt")); cbn [negb] in Hin |- *.
  2:{ cbn [fst] in Hin. rewrite <- (app_nil_r (defaultLookup body)) in Hin.
      rewrite calls_defaultLookup in Hin. destruct Hin. }
  rewrite (switch_recognized _ p Hprovider) in Hin |- *.
  destruct (adapter_runs host p (field body "prompt") (resolvedOptions body))
    as (t & r & Hrun & [Hmodel _] & _).
  rewrite Hrun. cbn [snd]. eexists. split; [reflexivity|].
  split; [reflexivity|].
  cbn [payload LLMResponse_object field lookup String.eqb Ascii.eqb Bool.eqb].
  rewrite Hmodel. destruct p; split; solve [reflexivity | discriminate].
Qed.

Lemma model_reported_is_model_called_witness :
  In (firstCall stubHost (sampleBody "x" "openai"))
     (calls (fst (POST stubHost (requestOf (sampleBody "x" "openai"))))) /\
  exists response,
    snd (POST stubHost (requestOf (sampleBody "x" "openai")))
      = Normal response /\
    status response = 200 /\
    field (payload response) "model"
      = modelSent (firstCall stubHost (sampleBody "x" "openai")) /\
    modelSent (firstCall stubHost (sampleBody "x" "openai")) <> Undefined.
Proof.
  assert (Hin : In (firstCall stubHost (sampleBody "x" "openai"))
                   (calls (fst (POST stubHost
                                  (requestOf (sampleBody "x" "openai"))))))
    by (vm_compute; left; reflexivity).
  split; [exact Hin|].
  exact (model_reported_is_model_called stubHost (sampleBody "x" "openai")
           _ Hin).
Defined.

(** X18.  In the OpenAI call, top-p is 0.95 when [options.topP] is absent
    and the request's own value when that value is a finite number other
    than 0. *)
Theorem openai_top_p_sent (host : Host) (body : Value) (ev : Event) :
  In ev (calls (fst (POST host (requestOf body)))) ->
  resolvedProvider host body = Str (providerId openai) ->
  (field (resolvedOptions body) "topP" = Undefined ->
   field (settings ev) "top_p" = Num 0.95) /\
  (forall x,
      field (resolvedOptions body) "topP" = Num x ->
      truthy (Num x) = true ->
      is_finite x = true ->
      field (settings ev) "top_p" = Num x).
Proof.
  intros Hin Hprovider.
  assert (Hfetch : viaFetch ev = true).
  { destruct (POST_calls host body ev Hin)
      as (q & key & content & Hq & _ & _ & ->).
    rewrite Hprovider in Hq. destruct q; [discriminate Hq | | ]; reflexivity. }
  destruct (fetch_call_settings host body ev Hin Hfetch)
    as (p & content & _ & Hp & _ & _ & _ & _ & -> & _).
  assert (p = openai) as ->.
  { rewrite Hprovider in Hp. destruct p; inversion Hp; reflexivity. }
  split.
  - intros ->. reflexivity.
  - intros x -> Htruthy Hfinite. unfold or. rewrite Htruthy.
    now apply serialised_number.
Qed.

Lemma openai_top_p_sent_witness :
  (In (firstCall stubHost (sampleBody "x" "openai"))
      (calls (fst (POST stubHost (requestOf (sampleBody "x" "openai"))))) /\
   resolvedProvider stubHost (sampleBody "x" "openai")
     = Str (providerId openai)) /\
  (field (resolvedOptions (sampleBody "x" "openai")) "topP" = Undefined ->
   field (settings (firstCall stubHost (sampleBody "x" "openai"))) "top_p"
   = Num 0.95) /\
  (forall x,
      field (resolvedOptions (sampleBody "x" "openai")) "topP" = Num x ->
      truthy (Num x) = true ->
      is_finite x = true ->
      field (settings (firstCall stubHost (sampleBody "x" "openai"))) "top_p"
      = Num x).
Proof.
  assert (Hin : In (firstCall stubHost (sampleBody "x" "openai"))
                   (calls (fst (POST stubHost
                                  (requestOf (sampleBody "x" "openai"))))))
    by (vm_compute; left; reflexivity).
  split; [split; [exact Hin | reflexivity]|].
  exact (openai_top_p_sent stubHost (sampleBody "x" "openai") _ Hin eq_refl).
Defined.

(** *** Further properties of the prompt builders *)

(** X19.  Each builder embeds the text verbatim at a fixed place: for
    given options the rendered prompt is a fixed opening, the text itself,
    and a fixed continuation; nothing in the text is escaped or changed. *)
Theorem text_embedded_verbatim (host : Host) (p : LLMProvider)
  (options : Value) :
  nullish options = false ->
  exists opening continuation,
    forall s, builder host p (Str s) options
              = Normal (opening ++ s ++ continuation).
Proof.
  intros Hoptions. destruct p; cbn [builder].
  - exists geminiOpening, geminiInstructions. intros s.
    apply gemini_rendered.
  - eexists openaiOpening, _. intros s.
    rewrite (openai_rendered host s options Hoptions). reflexivity.
  - eexists claudeOpening, _. intros s.
    rewrite (claude_rendered host s options Hoptions). reflexivity.
Qed.

Lemma text_embedded_verbatim_witness :
  nullish (Obj [("includeGoals", Bool true)]) = false /\
  exists opening continuation,
    forall s, builder bareHost claude (Str s)
                (Obj [("includeGoals", Bool true)])
              = Normal (opening ++ s ++ continuation).
Proof.
  split; [reflexivity|].
  apply (text_embedded_verbatim bareHost claude
           (Obj [("includeGoals", Bool true)])).
  reflexivity.
Defined.

(** X20.  The rendered prompt depends on the options only through the
    truth of the four include flags: temperature, topP, topK,
    includeFlowData and any other field never change it. *)
Theorem prompt_depends_on_flags_only (host : Host) (p : LLMProvider)
  (s : string) (options options' : Value) :
  nullish options = false ->
  nullish options' = false ->
  (forall f, flagSet options' f = flagSet options f) ->
  builder host p (Str s) options' = builder host p (Str s) options.
Proof.
  intros Hoptions Hoptions' Hflags. destruct p; cbn [builder].
  - reflexivity.
  - rewrite !openai_rendered by assumption. unfold flagLine.
    now rewrite !Hflags.
  - rewrite !claude_rendered by assumption. unfold flagLine.
    now rewrite !Hflags.
Qed.

Lemma prompt_depends_on_flags_only_witness :
  (nullish (Obj [("includeGoals", Bool true)]) = false /\
   nullish (Obj [("temperature", Num 0.2); ("includeFlowData", Bool true);
                 ("includeGoals", Num 1)]) = false /\
   (forall f,
       flagSet (Obj [("temperature", Num 0.2); ("includeFlowData", Bool true);
                     ("includeGoals", Num 1)]) f
       = flagSet (Obj [("includeGoals", Bool true)]) f)) /\
  builder bareHost openai (Str "x")
    (Obj [("temperature", Num 0.2); ("includeFlowData", Bool true);
          ("includeGoals", Num 1)])
  = builder bareHost openai (Str "x") (Obj [("includeGoals", Bool true)]).
Proof.
  assert (Hflags :
            forall f,
              flagSet (Obj [("temperature", Num 0.2);
                            ("includeFlowData", Bool true);
                            ("includeGoals", Num 1)]) f
              = flagSet (Obj [("includeGoals", Bool true)]) f)
    by (intros f; destruct f; reflexivity).
  split; [repeat split; exact Hflags|].
  apply (prompt_depends_on_flags_only bareHost openai "x"
           (Obj [("includeGoals", Bool true)])
           (Obj [("temperature", Num 0.2); ("includeFlowData", Bool true);
                 ("includeGoals", Num 1)]));
    [reflexivity | reflexivity | exact Hflags].
Defined.

(** *** The journal modal *)

(** The arithmetic of both handlers: with the index in range, the
    remainders they compute step by one and wrap at the ends. *)
Lemma wrapped_index (total current : Z) :
  (1 < total)%Z ->
  (0 <= current < total)%Z ->
  Z.rem (current + 1) total
    = (if (current =? total - 1)%Z then 0 else current + 1)%Z /\
  Z.rem (current - 1 + total) total
    = (if (current =? 0)%Z then total - 1 else current - 1)%Z.
Proof.
  intros Htotal Hcurrent. split.
  - destruct (Z.eqb_spec current (total - 1)) as [->|Hlast].
    + replace (total - 1 + 1)%Z with total by lia.
      apply Z.rem_same. lia.
    + apply Z.rem_small. lia.
  - destruct (Z.eqb_spec current 0) as [->|Hfirst].
    + replace (0 - 1 + total)%Z with (total - 1)%Z by lia.
      apply Z.rem_small. lia.
    + replace (current - 1 + total)%Z with ((current - 1) + 1 * total)%Z
        by lia.
      rewrite Z.rem_mod_nonneg, Z.mod_add, Z.mod_small by lia. reflexivity.
Qed.

(** X21.  With more than one entry and the current index in range, both
    directions hand [onNavigate] an index in range, and they wrap: next of
    the last entry is the first, previous of the first is the last. *)
Theorem navigation_wraps (total current : Z)
  (direction : JournalModal.Direction) :
  (1 < total)%Z ->
  (0 <= current < total)%Z ->
  exists i,
    JournalModal.handleNavigateClick total current direction = Some i /\
    (0 <= i < total)%Z /\
    i = match direction with
        | JournalModal.next =>
            if (current =? total - 1)%Z then 0%Z else (current + 1)%Z
        | JournalModal.prev =>
            if (current =? 0)%Z then (total - 1)%Z else (current - 1)%Z
        end.
Proof.
  intros Htotal Hcurrent. unfold JournalModal.handleNavigateClick.
  cbv zeta.
  destruct (Z.leb_spec total 1) as [Hle|_]; [lia|].
  destruct (wrapped_index total current Htotal Hcurrent) as [Hnext Hprev].
  eexists; split; [reflexivity|].
  destruct direction; [rewrite Hnext | rewrite Hprev].
  - destruct (Z.eqb_spec current (total - 1)); lia.
  - destruct (Z.eqb_spec current 0); lia.
Qed.

Lemma navigation_wraps_witness :
  ((1 < 3)%Z /\ (0 <= 2 < 3)%Z) /\
  exists i,
    JournalModal.handleNavigateClick 3 2 JournalModal.next = Some i /\
    (0 <= i < 3)%Z /\
    i = (if (2 =? 3 - 1)%Z then 0%Z else (2 + 1)%Z).
Proof.
  split; [lia|].
  apply (navigation_wraps 3 2 JournalModal.next); lia.
Defined.

(** X22.  Going to the next entry and then to the previous one, or the
    other way round, comes back to the entry one started from. *)
Theorem navigation_round_trip (total current : Z) :
  (1 < total)%Z ->
  (0 <= current < total)%Z ->
  (exists i,
      JournalModal.handleNavigateClick total current JournalModal.next
        = Some i /\
      JournalModal.handleNavigateClick total i JournalModal.prev
        = Some current) /\
  (exists i,
      JournalModal.handleNavigateClick total current JournalModal.prev
        = Some i /\
      JournalModal.handleNavigateClick total i JournalModal.next
        = Some current).
Proof.
  intros Htotal Hcurrent. unfold JournalModal.handleNavigateClick.
  cbv zeta.
  destruct (Z.leb_spec total 1) as [Hle|_]; [lia|].
  destruct (wrapped_index total current Htotal Hcurrent) as [Hnext Hprev].
  split; eexists; (split; [reflexivity|]); f_equal.
  - rewrite Hnext.
    destruct (Z.eqb_spec current (total - 1)) as [->|Hlast].
    + now destruct (wrapped_index total 0 Htotal ltac:(lia)) as [_ ->].
    + destruct (wrapped_index total (current + 1) Htotal ltac:(lia))
        as [_ ->].
      destruct (Z.eqb_spec (current + 1) 0); lia.
  - rewrite Hprev.
    destruct (Z.eqb_spec current 0) as [->|Hfirst].
    + destruct (wrapped_index total (total - 1) Htotal ltac:(lia))
        as [-> _].
      now rewrite Z.eqb_refl.
    + destruct (wrapped_index total (current - 1) Htotal ltac:(lia))
        as [-> _].
      destruct (Z.eqb_spec (current - 1) (total - 1)); lia.
Qed.

Lemma navigation_round_trip_witness :
  ((1 < 3)%Z /\ (0 <= 2 < 3)%Z) /\
  (exists i,
      JournalModal.handleNavigateClick 3 2 JournalModal.next = Some i /\
      JournalModal.handleNavigateClick 3 i JournalModal.prev = Some 2%Z) /\
  (exists i,
      JournalModal.handleNavigateClick 3 2 JournalModal.prev = Some i /\
      JournalModal.handleNavigateClick 3 i JournalModal.next = Some 2%Z).
Proof.
  split; [lia|].
  apply (navigation_round_trip 3 2); lia.
Defined.

(** X23.  With the current image index in range, the index
    [handleImageNavigate] sets is again the index of an image of the
    entry; it sets nothing only when the entry has a single image. *)
Theorem image_index_stays_valid (entry : option JournalModal.JournalEntry)
  (current : Z) (direction : JournalModal.Direction) :
  (0 <= current < Z.of_nat (List.length (JournalModal.imagesOf entry)))%Z ->
  match JournalModal.handleImageNavigate entry current direction with
  | Some i =>
      (0 <= i)%Z /\
      nth_error (JournalModal.imagesOf entry) (Z.to_nat i) <> None
  | None => List.length (JournalModal.imagesOf entry) = 1
  end.
Proof.
  intros Hcurrent. unfold JournalModal.handleImageNavigate. cbv zeta.
  set (images := JournalModal.imagesOf entry) in *.
  destruct (Z.leb_spec (Z.of_nat (List.length images)) 1) as [Hle|Hgt];
    [lia|].
  destruct (wrapped_index (Z.of_nat (List.length images)) current Hgt
              Hcurrent) as [Hnext Hprev].
  destruct direction; [rewrite Hnext | rewrite Hprev].
  - destruct (Z.eqb_spec current (Z.of_nat (List.length images) - 1));
      (split; [lia | apply nth_error_Some; lia]).
  - destruct (Z.eqb_spec current 0);
      (split; [lia | apply nth_error_Some; lia]).
Qed.

Lemma image_index_stays_valid_witness :
  (0 <= 1
   < Z.of_nat
       (List.length
          (JournalModal.imagesOf
             (Some (JournalModal.mkJournalEntry
                      (Some (JournalModal.mkMediaUrl
                               (Some ["a.png"; "b.png"]))))))))%Z /\
  match
    JournalModal.handleImageNavigate
      (Some (JournalModal.mkJournalEntry
               (Some (JournalModal.mkMediaUrl (Some ["a.png"; "b.png"])))))
      1 JournalModal.next
  with
  | Some i =>
      (0 <= i)%Z /\
      nth_error
        (JournalModal.imagesOf
           (Some (JournalModal.mkJournalEntry
                    (Some (JournalModal.mkMediaUrl
                             (Some ["a.png"; "b.png"]))))))
        (Z.to_nat i) <> None
  | None =>
      List.length
        (JournalModal.imagesOf
           (Some (JournalModal.mkJournalEntry
                    (Some (JournalModal.mkMediaUrl
                             (Some ["a.png"; "b.png"])))))) = 1
  end.
Proof.
  split; [simpl; lia|].
  apply (image_index_stays_valid
           (Some (JournalModal.mkJournalEntry
                    (Some (JournalModal.mkMediaUrl
                             (Some ["a.png"; "b.png"])))))
           1 JournalModal.next).
  simpl. lia.
Defined.

(** *** The navigation bar *)

Lemma prefix_shorter (a b s : string) :
  prefix (a ++ b) s = true -> prefix a s = true.
Proof.
  revert s. induction a as [|x a IH]; intros s.
  - intros _. now destruct s.
  - destruct s as [|y s]; simpl; [discriminate|].
    destruct (ascii_dec x y); [apply IH | discriminate].
Qed.

Lemma occurs_shorter (a b s : string) :
  occurs (a ++ b) s = true -> occurs a s = true.
Proof.
  induction s as [|y s IH].
  - change (occurs (a ++ b) "") with (prefix (a ++ b) "" || false).
    change (occurs a "") with (prefix a "" || false).
    rewrite !orb_false_r. apply prefix_shorter.
  - change (occurs (a ++ b) (String y s))
      with (prefix (a ++ b) (String y s) || occurs (a ++ b) s).
    change (occurs a (String y s))
      with (prefix a (String y s) || occurs a s).
    intros H. apply orb_true_iff in H. apply orb_true_iff.
    destruct H as [H|H]; [left; now apply (prefix_shorter a b) | right; auto].
Qed.

(** X24.  The side bar is used exactly on the paths that contain
    "/journal" or start with "/user"; the separate test for
    "/journal-entry" never decides anything. *)
Theorem side_nav_paths (pathname : option string) :
  MainNavbar.shouldUseSideNav pathname =
    match pathname with
    | Some path =>
        MainNavbar.includes path "/journal"
        || MainNavbar.startsWith path "/user"
    | None => false
    end.
Proof.
  destruct pathname as [path|]; [|reflexivity].
  unfold MainNavbar.shouldUseSideNav, MainNavbar.pageTypes.
  cbv zeta. cbn [MainNavbar.isJournalPage MainNavbar.isJournalEntry
                   MainNavbar.isUserPath].
  destruct (MainNavbar.includes path "/journal-entry") eqn:Hentry.
  - unfold MainNavbar.includes in *.
    rewrite (occurs_shorter "/journal" "-entry" path Hentry). reflexivity.
  - now rewrite orb_false_r.
Qed.

(** X25.  For a visitor without a session, on any path that starts with
    "/", the bar is hidden exactly on "/", "/auth/login" and
    "/auth/register": the list of valid public paths excludes nothing,
    since every path starts with the href "/" of Home. *)
Theorem visitor_navbar (path : string) :
  MainNavbar.startsWith path "/" = true ->
  MainNavbar.shouldShowNavbar false (Some path) =
    negb ((path =? "/") || (path =? "/auth/login")
          || (path =? "/auth/register")).
Proof.
  intros Hslash. unfold MainNavbar.shouldShowNavbar, MainNavbar.pageTypes.
  cbv zeta. cbn [MainNavbar.isHomePage MainNavbar.isLoginPage
                   MainNavbar.isRegisterPage andb negb].
  rewrite andb_true_r.
  destruct ((path =? "/") || (path =? "/auth/login")
            || (path =? "/auth/register")); [reflexivity|].
  cbn [map MainNavbar.publicMenuItems MainNavbar.href existsb].
  now rewrite Hslash.
Qed.

Lemma visitor_navbar_witness :
  MainNavbar.startsWith "/user/dashboard" "/" = true /\
  MainNavbar.shouldShowNavbar false (Some "/user/dashboard") =
    negb (("/user/dashboard" =? "/") || ("/user/dashboard" =? "/auth/login")
          || ("/user/dashboard" =? "/auth/register")).
Proof.
  split; [reflexivity|].
  apply (visitor_navbar "/user/dashboard"). reflexivity.
Defined.

(** X26.  For a user with a session, the bar is shown exactly on the home
    page, on the paths that start with "/user" and on those that contain
    "/journal": the list of valid private paths adds nothing, since each
    of them starts with "/user". *)
Theorem member_navbar (pathname : option string) :
  MainNavbar.shouldShowNavbar true pathname =
    match pathname with
    | Some path =>
        MainNavbar.startsWith path "/user"
        || MainNavbar.includes path "/journal"
        || (path =? "/")
    | None => false
    end.
Proof.
  destruct pathname as [path|]; [|reflexivity].
  unfold MainNavbar.shouldShowNavbar, MainNavbar.pageTypes.
  cbv zeta. cbn [MainNavbar.isHomePage MainNavbar.isLoginPage
                   MainNavbar.isRegisterPage MainNavbar.isUserPath
                   MainNavbar.isJournalPage MainNavbar.isJournalEntry
                   andb negb].
  rewrite andb_false_r.
  destruct (MainNavbar.startsWith path "/user") eqn:Huser; [reflexivity|].
  destruct (MainNavbar.includes path "/journal") eqn:Hjournal;
    [reflexivity|].
  assert (Hentry : MainNavbar.includes path "/journal-entry" = false).
  { destruct (MainNavbar.includes path "/journal-entry") eqn:H;
      [|reflexivity].
    unfold MainNavbar.includes in *.
    rewrite (occurs_shorter "/journal" "-entry" path H) in Hjournal.
    discriminate. }
  rewrite Hentry.
  destruct (path =? "/"); [reflexivity|].
  cbn [orb map MainNavbar.privateMenuItems MainNavbar.href existsb].
  unfold MainNavbar.startsWith in *.
  assert (Hnot : forall rest, prefix ("/user" ++ rest) path = false).
  { intros rest. destruct (prefix ("/user" ++ rest) path) eqn:H;
      [|reflexivity].
    rewrite (prefix_shorter "/user" rest path H) in Huser. discriminate. }
  pose proof (Hnot "/dashboard") as H1.
  pose proof (Hnot "/journal-entry") as H2.
  pose proof (Hnot "/journal/my-diary") as H3.
  pose proof (Hnot "/analysis") as H4.
  pose proof (Hnot "/profile") as H5.
  cbn [append] in H1, H2, H3, H4, H5.
  rewrite H1, H2, H3, H4, H5. reflexivity.
Qed.
